(** * Vitalae web frontend: profile metrics, risk levels and login

    A shallow embedding of the computational parts of the Vitalae React
    frontend:

    - [ProfilePage] (src/App.tsx): the BMI effect, the risk score computed by
      [handleSubmit], the risk category, and the page as a state machine over
      field changes and submissions;
    - [DashboardPage] (src/pages/DashboardPage.tsx): [getRiskLevel];
    - [AuthContext] (src/contexts/AuthContext.tsx): [login], [register] and
      [logout] over the user, [localStorage] and the axios default headers.

    JavaScript numbers are IEEE-754 binary64 values, so they are embedded as
    Rocq's primitive floats and every comparison and arithmetic operation of
    the source is the corresponding primitive operation. *)

From Stdlib Require Import ZArith QArith Qabs Qround Bool List Lia.
From Stdlib Require Import Floats.
From stdpp Require Import base option gmap strings.
Import ListNotations.

Set Warnings "-inexact-float".

(** ** JavaScript numbers *)

Module Js.

Definition number : Type := float.

(** The number holding a small non-negative integer; exact below [2^53]. *)
Definition Z2F (z : Z) : number := of_uint63 (Uint63.of_Z z).

(** [x > y] and [x >= y] are [y < x] and [y <= x] on binary64 (both false
    when an operand is NaN). *)
Definition gtb (x y : number) : bool := (y <? x)%float.
Definition geb (x y : number) : bool := (y <=? x)%float.
Arguments gtb (x y)%_float.
Arguments geb (x y)%_float.

(** [Object.is] on numbers: NaN is itself, and [+0] differs from [-0]. *)
Definition Object_is (x y : number) : bool := PrimFloat.Leibniz.eqb x y.

(** A number is falsy when it is [0], [-0] or NaN. *)
Definition falsy (x : number) : bool := is_zero x || is_nan x.

(** [Math.min(x, y)] (ECMA-262, 21.3.2.25): NaN if an argument is NaN;
    starting from [+Infinity], an argument replaces the lowest value when
    it is smaller, and [-0] replaces [+0]. *)
Definition Math_min (x y : number) : number :=
  if is_nan x || is_nan y then nan
  else
    let lowest := infinity in
    let lowest := if (x <? lowest)%float then x else lowest in
    if Object_is y neg_zero && Object_is lowest zero then neg_zero
    else if (y <? lowest)%float then y else lowest.

Arguments Math_min (x y)%_float.

(** *** [Number.prototype.toFixed(1)] and [Number(string)]

    [x.toFixed(1)] (ECMA-262, 21.1.3.3) yields a string.  The strings it
    can yield are represented by their shape: ["NaN"], a signed
    ["Infinity"], the exponent form [ToString(x)] used when [|x| >= 1e21],
    and a sign followed by the decimal digits of an integer [n] with the
    point before the last digit, which denotes [n / 10]. *)
Inductive fixed1 : Type :=
| FixedNaN
| FixedInfinity (neg : bool)
| FixedExp (x : number)
| FixedDec (neg : bool) (n : Z).

(** "Let n be an integer for which n / 10 - x is as close to zero as
    possible. If there are two such n, pick the larger n", for the
    magnitude [x = m * 2^e]. *)
Definition tenths (m : positive) (e : Z) : Z :=
  match e with
  | Zneg k => (20 * Zpos m + 2 ^ Zpos k) / 2 ^ (Zpos k + 1)
  | _ => 10 * Zpos m * 2 ^ e
  end.

Definition toFixed1 (x : number) : fixed1 :=
  match Prim2SF x with
  | S754_nan => FixedNaN
  | S754_infinity s => FixedInfinity s
  | S754_zero _ => FixedDec false 0
  | S754_finite s m e =>
      if (1e21 <=? abs x)%float then FixedExp x
      else FixedDec s (tenths m e)
  end.

(** The binary64 value nearest to [n / 10] (ties to even), by the
    correctly rounded division of the integers [n] and [10]. *)
Definition nearest_tenth (n : Z) : number :=
  match n with
  | Zpos p =>
      SF2Prim (SFdiv prec emax (S754_finite false p 0) (S754_finite false 10 0))
  | _ => zero
  end.

(** [Number(s)] on the strings [toFixed(1)] yields: [ToString] round-trips,
    and a decimal literal reads as the nearest binary64 value. *)
Definition Number (s : fixed1) : number :=
  match s with
  | FixedNaN => nan
  | FixedInfinity neg => if neg then neg_infinity else infinity
  | FixedExp x => x
  | FixedDec neg n => if neg then (- nearest_tenth n)%float else nearest_tenth n
  end.

(** The exact rational value of a finite binary64 number. *)
Definition SF2Q (x : spec_float) : option Q :=
  match x with
  | S754_zero _ => Some 0%Q
  | S754_finite s m e =>
      let v := match e with
               | Zneg k => Qmake (Zpos m) (2 ^ k)
               | _ => inject_Z (Zpos m * 2 ^ e)
               end in
      Some (if s then Qopp v else v)
  | _ => None
  end.

Definition exact (x : number) : option Q := SF2Q (Prim2SF x).

(** [Math.min(...values)] and [Math.max(...values)] on an array spread as
    arguments (ECMA-262, 21.3.2.25 and 21.3.2.24): the values are visited in
    order from [+Infinity] (from [-Infinity]); a NaN ends the visit with
    NaN, [-0] replaces a lowest [+0] ([+0] replaces a highest [-0]), and a
    smaller (larger) value replaces the lowest (highest). *)
Fixpoint Math_min_from (lowest : number) (values : list number) : number :=
  match values with
  | [] => lowest
  | value :: rest =>
      if is_nan value then nan
      else if Object_is value neg_zero && Object_is lowest zero
           then Math_min_from neg_zero rest
      else if (value <? lowest)%float then Math_min_from value rest
      else Math_min_from lowest rest
  end.

Definition Math_min_spread (values : list number) : number :=
  Math_min_from infinity values.

Fixpoint Math_max_from (highest : number) (values : list number) : number :=
  match values with
  | [] => highest
  | value :: rest =>
      if is_nan value then nan
      else if Object_is value zero && Object_is highest neg_zero
           then Math_max_from zero rest
      else if gtb value highest then Math_max_from value rest
      else Math_max_from highest rest
  end.

Definition Math_max_spread (values : list number) : number :=
  Math_max_from neg_infinity values.

End Js.

(** ** AuthContext.tsx: the user record *)

Record User : Type := mkUser {
  user_id : string;
  user_email : string;
  user_firstName : string;
  user_lastName : string;
  user_age : Js.number;
  user_gender : string;
  user_phoneNumber : option string
}.

(** The object both [getRiskLevel] functions return. *)
Record RiskLevel : Type := mkRiskLevel {
  level : string;
  color : string;
  bg : string
}.

(** ** App.tsx: ProfilePage *)

Module ProfilePage.
Import Js.
Local Open Scope float_scope.

(** The string unions of [ProfileData].  ['moderate'] is a value of two
    of them and gets one constructor in each. *)
Inductive SmokingStatus : Type := never | former | current.
Inductive AlcoholConsumption : Type := none | moderate_alcohol | heavy.
Inductive ActivityLevel : Type := sedentary | moderate_activity | active.
Inductive PredictedRisk : Type := low | medium | high.

Record FamilyHistory : Type := mkFamilyHistory {
  heartDisease : bool;
  diabetes : bool;
  hypertension : bool
}.

Record ProfileData : Type := mkProfileData {
  height : number;
  weight : number;
  age : number;
  bmi : number;
  smokingStatus : SmokingStatus;
  alcoholConsumption : AlcoholConsumption;
  activityLevel : ActivityLevel;
  hasHypertension : bool;
  hasDiabetes : bool;
  hasHighBP : bool;
  familyHistory : FamilyHistory;
  healthRiskScore : number;
  predictedRisk : PredictedRisk
}.

Arguments mkProfileData (height weight age bmi)%_float _ _ _ _ _ _ _
  healthRiskScore%_float _.

(** [age: user?.age || 30] *)
Definition initialAge (user : option User) : number :=
  match user with
  | Some u => if falsy (user_age u) then 30 else user_age u
  | None => 30
  end.

(** The argument of [useState<ProfileData>]. *)
Definition initialProfileData (user : option User) : ProfileData :=
  {| height := 170;
     weight := 70;
     age := initialAge user;
     bmi := 24.2;
     smokingStatus := never;
     alcoholConsumption := none;
     activityLevel := moderate_activity;
     hasHypertension := false;
     hasDiabetes := false;
     hasHighBP := false;
     familyHistory :=
       {| heartDisease := false; diabetes := false; hypertension := false |};
     healthRiskScore := 25;
     predictedRisk := low |}.

(** The body of the BMI effect, up to the value it stores. *)
Definition computeBmi (height weight : number) : number :=
  let heightInMeters := height / 100 in
  Number (toFixed1 (weight / (heightInMeters * heightInMeters))).

Arguments computeBmi (height weight)%_float.

(** [setProfileData(prev => ({ ...prev, bmi }))] *)
Definition with_bmi (bmi' : number) (prev : ProfileData) : ProfileData :=
  {| height := height prev;
     weight := weight prev;
     age := age prev;
     bmi := bmi';
     smokingStatus := smokingStatus prev;
     alcoholConsumption := alcoholConsumption prev;
     activityLevel := activityLevel prev;
     hasHypertension := hasHypertension prev;
     hasDiabetes := hasDiabetes prev;
     hasHighBP := hasHighBP prev;
     familyHistory := familyHistory prev;
     healthRiskScore := healthRiskScore prev;
     predictedRisk := predictedRisk prev |}.

Arguments with_bmi bmi'%_float prev.

(** The effect [useEffect(..., [profileData.height, profileData.weight])]:
    it reads the rendered [profileData] and stores the new [bmi]. *)
Definition bmiEffect (profileData : ProfileData) : ProfileData :=
  with_bmi (computeBmi (height profileData) (weight profileData)) profileData.

(** React compares the dependencies of two successive renders with
    [Object.is] and runs the effect when one of them differs.  The render
    that the effect triggers has the same dependencies, so one run settles
    the page. *)
Definition depsChanged (rendered next : ProfileData) : bool :=
  negb (Object_is (height rendered) (height next)
        && Object_is (weight rendered) (weight next)).

Definition commit (rendered next : ProfileData) : ProfileData :=
  if depsChanged rendered next then bmiEffect next else next.

Record BMICategory : Type := mkBMICategory {
  category : string;
  bmi_color : string;
  bmi_bg : string
}.

Definition getBMICategory (bmi : number) : BMICategory :=
  if bmi <? 18.5 then mkBMICategory "Underweight" "text-blue-600" "bg-blue-50"
  else if bmi <? 25 then mkBMICategory "Normal" "text-green-600" "bg-green-50"
  else if bmi <? 30 then mkBMICategory "Overweight" "text-yellow-600" "bg-yellow-50"
  else mkBMICategory "Obese" "text-red-600" "bg-red-50".

Definition getRiskLevel (score : number) : RiskLevel :=
  if score <? 30 then mkRiskLevel "Low" "text-green-600" "bg-green-50"
  else if score <? 60 then mkRiskLevel "Medium" "text-yellow-600" "bg-yellow-50"
  else mkRiskLevel "High" "text-red-600" "bg-red-50".

(** The calls of [handleInputChange(field, value)] in the form: one per
    input, with the value the input hands over. *)
Inductive InputChange : Type :=
| set_height (value : number)
| set_weight (value : number)
| set_age (value : number)
| set_smokingStatus (value : SmokingStatus)
| set_alcoholConsumption (value : AlcoholConsumption)
| set_activityLevel (value : ActivityLevel)
| set_hasHypertension (value : bool)
| set_hasDiabetes (value : bool)
| set_hasHighBP (value : bool).

(** [setProfileData(prev => ({ ...prev, [field]: value }))] *)
Definition handleInputChange (c : InputChange) (prev : ProfileData) : ProfileData :=
  {| height := match c with set_height v => v | _ => height prev end;
     weight := match c with set_weight v => v | _ => weight prev end;
     age := match c with set_age v => v | _ => age prev end;
     bmi := bmi prev;
     smokingStatus :=
       match c with set_smokingStatus v => v | _ => smokingStatus prev end;
     alcoholConsumption :=
       match c with set_alcoholConsumption v => v | _ => alcoholConsumption prev end;
     activityLevel :=
       match c with set_activityLevel v => v | _ => activityLevel prev end;
     hasHypertension :=
       match c with set_hasHypertension v => v | _ => hasHypertension prev end;
     hasDiabetes := match c with set_hasDiabetes v => v | _ => hasDiabetes prev end;
     hasHighBP := match c with set_hasHighBP v => v | _ => hasHighBP prev end;
     familyHistory := familyHistory prev;
     healthRiskScore := healthRiskScore prev;
     predictedRisk := predictedRisk prev |}.

Arguments set_height value%_float.
Arguments set_weight value%_float.
Arguments set_age value%_float.

Inductive FamilyField : Type := f_heartDisease | f_diabetes | f_hypertension.

(** [setProfileData(prev => ({ ...prev,
      familyHistory: { ...prev.familyHistory, [field]: value } }))] *)
Definition handleFamilyHistoryChange (field : FamilyField) (value : bool)
    (prev : ProfileData) : ProfileData :=
  let fh := familyHistory prev in
  {| height := height prev;
     weight := weight prev;
     age := age prev;
     bmi := bmi prev;
     smokingStatus := smokingStatus prev;
     alcoholConsumption := alcoholConsumption prev;
     activityLevel := activityLevel prev;
     hasHypertension := hasHypertension prev;
     hasDiabetes := hasDiabetes prev;
     hasHighBP := hasHighBP prev;
     familyHistory :=
       {| heartDisease :=
            match field with f_heartDisease => value | _ => heartDisease fh end;
          diabetes := match field with f_diabetes => value | _ => diabetes fh end;
          hypertension :=
            match field with f_hypertension => value | _ => hypertension fh end |};
     healthRiskScore := healthRiskScore prev;
     predictedRisk := predictedRisk prev |}.

(** The risk score of [handleSubmit], before the clamp: the sequence of
    conditional [riskScore += k] statements. *)
Definition riskScore (profileData : ProfileData) : number :=
  let riskScore := 0 in
  let riskScore :=
    if gtb (age profileData) 65 then riskScore + 20
    else if gtb (age profileData) 45 then riskScore + 15
    else if gtb (age profileData) 35 then riskScore + 10
    else riskScore in
  let riskScore :=
    if geb (bmi profileData) 30 then riskScore + 25
    else if geb (bmi profileData) 25 then riskScore + 15
    else if bmi profileData <? 18.5 then riskScore + 10
    else riskScore in
  let riskScore :=
    match smokingStatus profileData with
    | current => riskScore + 20
    | former => riskScore + 10
    | never => riskScore
    end in
  let riskScore :=
    match alcoholConsumption profileData with
    | heavy => riskScore + 15
    | moderate_alcohol => riskScore + 5
    | none => riskScore
    end in
  let riskScore :=
    match activityLevel profileData with
    | sedentary => riskScore + 15
    | moderate_activity => riskScore + 5
    | active => riskScore
    end in
  let riskScore := if hasHypertension profileData then riskScore + 20 else riskScore in
  let riskScore := if hasDiabetes profileData then riskScore + 25 else riskScore in
  let riskScore := if hasHighBP profileData then riskScore + 15 else riskScore in
  let riskScore :=
    if heartDisease (familyHistory profileData) then riskScore + 10 else riskScore in
  let riskScore :=
    if diabetes (familyHistory profileData) then riskScore + 10 else riskScore in
  let riskScore :=
    if hypertension (familyHistory profileData) then riskScore + 8 else riskScore in
  riskScore.

(** [riskScore < 30 ? 'low' : riskScore < 60 ? 'medium' : 'high'] *)
Definition predictRisk (riskScore : number) : PredictedRisk :=
  if riskScore <? 30 then low else if riskScore <? 60 then medium else high.

(** [setProfileData(prev => ({ ...prev,
      healthRiskScore: Math.min(riskScore, 100), predictedRisk }))],
    where [riskScore] and [predictedRisk] come from the [profileData] that
    [handleSubmit] closed over. *)
Definition storeRisk (submitted prev : ProfileData) : ProfileData :=
  let riskScore := riskScore submitted in
  let predictedRisk := predictRisk riskScore in
  {| height := height prev;
     weight := weight prev;
     age := age prev;
     bmi := bmi prev;
     smokingStatus := smokingStatus prev;
     alcoholConsumption := alcoholConsumption prev;
     activityLevel := activityLevel prev;
     hasHypertension := hasHypertension prev;
     hasDiabetes := hasDiabetes prev;
     hasHighBP := hasHighBP prev;
     familyHistory := familyHistory prev;
     healthRiskScore := Math_min riskScore 100;
     predictedRisk := predictedRisk |}.

(** *** The page as a state machine

    The state of the component: [profileData], [loading], the
    [profileData] captured by a [handleSubmit] that is waiting on its
    one-second promise, and the toasts shown so far. *)
Record Page : Type := mkPage {
  profileData : ProfileData;
  loading : bool;
  submitted : option ProfileData;
  toasts : list string
}.

(** What can happen to the page: an input changes, a family-history box
    changes, the form is submitted, the promise of a pending submission
    resolves. *)
Inductive Event : Type :=
| InputChanged (c : InputChange)
| FamilyHistoryChanged (field : FamilyField) (value : bool)
| Submit
| SubmitResolved.

(** The first render, followed by the effect, which always runs on mount. *)
Definition mount (user : option User) : Page :=
  {| profileData := bmiEffect (initialProfileData user);
     loading := false;
     submitted := None;
     toasts := [] |}.

(** One event, with the render and the effect run that follow it.  The
    submit button is disabled while [loading], and [SubmitResolved] needs
    a pending submission.  The browser's validation of the inputs can only
    hold a submission back, so it is left out: the machine has every
    behaviour of the page. *)
Definition step (p : Page) (ev : Event) : Page :=
  match ev with
  | InputChanged c =>
      {| profileData := commit (profileData p) (handleInputChange c (profileData p));
         loading := loading p;
         submitted := submitted p;
         toasts := toasts p |}
  | FamilyHistoryChanged field value =>
      {| profileData :=
           commit (profileData p)
                  (handleFamilyHistoryChange field value (profileData p));
         loading := loading p;
         submitted := submitted p;
         toasts := toasts p |}
  | Submit =>
      if loading p then p
      else {| profileData := profileData p;
              loading := true;
              submitted := Some (profileData p);
              toasts := toasts p |}
  | SubmitResolved =>
      match submitted p with
      | Some closed =>
          {| profileData := commit (profileData p) (storeRisk closed (profileData p));
             loading := false;
             submitted := None;
             toasts := toasts p ++ ["Profile updated successfully!"%string] |}
      | None => p
      end
  end.

Definition run (p : Page) (evs : list Event) : Page := fold_left step evs p.

Inductive reachable (user : option User) : Page -> Prop :=
| reachable_mount : reachable user (mount user)
| reachable_step p ev : reachable user p -> reachable user (step p ev).

(** [const bmiCategory = getBMICategory(profileData.bmi)] and
    [const riskLevel = getRiskLevel(profileData.healthRiskScore)], which the
    page renders next to the BMI and the score. *)
Definition bmiCategory (p : Page) : BMICategory :=
  getBMICategory (bmi (profileData p)).

Definition riskLevel (p : Page) : RiskLevel :=
  getRiskLevel (healthRiskScore (profileData p)).

End ProfilePage.

(** ** pages/DashboardPage.tsx *)

Module DashboardPage.
Import Js.
Local Open Scope float_scope.

Definition getRiskLevel (score : number) : RiskLevel :=
  if score <? 30 then mkRiskLevel "Low" "text-green-600" "bg-green-50"
  else if score <? 60 then mkRiskLevel "Medium" "text-yellow-600" "bg-yellow-50"
  else mkRiskLevel "High" "text-red-600" "bg-red-50".

(** [getStatusColor(metric, value)]: the [switch] compares the metric name
    with [===]. *)
Definition getStatusColor (metric : string) (value : number) : string :=
  if String.eqb metric "heartRate" then
    if value <? 60 then "text-blue-600"%string
    else if gtb value 100 then "text-red-600"%string
    else "text-green-600"%string
  else if String.eqb metric "spo2" then
    if value <? 95 then "text-red-600"%string else "text-green-600"%string
  else if String.eqb metric "lactate" then
    if gtb value 2 then "text-red-600"%string
    else if gtb value 1.5 then "text-yellow-600"%string
    else "text-green-600"%string
  else if String.eqb metric "bmi" then
    if value <? 18.5 then "text-blue-600"%string
    else if gtb value 25 then "text-yellow-600"%string
    else "text-green-600"%string
  else "text-gray-600"%string.

Arguments getStatusColor metric%_string value%_float.

End DashboardPage.

(** ** contexts/AuthContext.tsx *)

Module AuthContext.
Local Open Scope string_scope.

Record RegisterData : Type := mkRegisterData {
  reg_email : string;
  reg_password : string;
  reg_firstName : string;
  reg_lastName : string;
  reg_dateOfBirth : string;
  reg_gender : string;
  reg_phoneNumber : option string
}.

(** [response.data.data]: the user and the token. *)
Record Session : Type := mkSession {
  session_user : User;
  session_token : string
}.

(** [response.data] of the authentication endpoints. *)
Record ResponseData : Type := mkResponseData {
  success : bool;
  message : option string;
  data : option Session
}.

(** What can be thrown inside [login]: the rejection of the request, which
    may carry [error.response.data.message], or the [TypeError] of
    destructuring a missing [response.data.data]. *)
Inductive Error : Type :=
| AxiosError (response_message : option string)
| TypeError.

(** How the awaited request ends. *)
Inductive HttpResult : Type :=
| Resolved (response : ResponseData)
| Rejected (error : Error).

Inductive Toast : Type :=
| toast_success (text : string)
| toast_error (text : string).

(** The provider's state and the ambient objects it writes: [localStorage],
    [axios.defaults.headers.common], the toasts and the console. *)
Record Auth : Type := mkAuth {
  user : option User;
  loading : bool;
  localStorage : gmap string string;
  headers : gmap string string;
  toasts : list Toast;
  console : list string
}.

(** *** A state and exception monad for the async functions *)

Inductive Outcome (A : Type) : Type :=
| Returned (a : A)
| Thrown (e : Error).
Arguments Returned {A} a.
Arguments Thrown {A} e.

Definition M (A : Type) : Type := Auth -> Auth * Outcome A.

Definition ret {A} (a : A) : M A := fun s => (s, Returned a).
Definition throw {A} (e : Error) : M A := fun s => (s, Thrown e).
Definition bind {A B} (m : M A) (k : A -> M B) : M B :=
  fun s => match m s with
           | (s', Returned a) => k a s'
           | (s', Thrown e) => (s', Thrown e)
           end.
Definition try_catch {A} (body : M A) (handler : Error -> M A) : M A :=
  fun s => match body s with
           | (s', Returned a) => (s', Returned a)
           | (s', Thrown e) => handler e s'
           end.
(** [finally] runs after the body however it ends and keeps its outcome. *)
Definition try_finally {A} (body : M A) (final : M unit) : M A :=
  fun s => match body s with
           | (s', r) => match final s' with
                        | (s'', Returned _) => (s'', r)
                        | (s'', Thrown e) => (s'', Thrown e)
                        end
           end.
Definition modify (f : Auth -> Auth) : M unit := fun s => (f s, Returned tt).

Notation "x <- m ;; k" := (bind m (fun x => k))
  (at level 100, m at next level, right associativity).
Notation "m ;;; k" := (bind m (fun _ => k))
  (at level 100, right associativity).

Definition setUser (u : option User) : M unit :=
  modify (fun s => mkAuth u (loading s) (localStorage s) (headers s) (toasts s) (console s)).
Definition setLoading (b : bool) : M unit :=
  modify (fun s => mkAuth (user s) b (localStorage s) (headers s) (toasts s) (console s)).
Definition localStorage_setItem (k v : string) : M unit :=
  modify (fun s =>
    mkAuth (user s) (loading s) (<[k := v]> (localStorage s)) (headers s)
           (toasts s) (console s)).
Definition localStorage_removeItem (k : string) : M unit :=
  modify (fun s =>
    mkAuth (user s) (loading s) (delete k (localStorage s)) (headers s)
           (toasts s) (console s)).
Definition set_header (k v : string) : M unit :=
  modify (fun s =>
    mkAuth (user s) (loading s) (localStorage s) (<[k := v]> (headers s))
           (toasts s) (console s)).
Definition delete_header (k : string) : M unit :=
  modify (fun s =>
    mkAuth (user s) (loading s) (localStorage s) (delete k (headers s))
           (toasts s) (console s)).
Definition toast (t : Toast) : M unit :=
  modify (fun s =>
    mkAuth (user s) (loading s) (localStorage s) (headers s)
           (toasts s ++ [t]) (console s)).
Definition console_error (line : string) : M unit :=
  modify (fun s =>
    mkAuth (user s) (loading s) (localStorage s) (headers s)
           (toasts s) (console s ++ [line])).

(** [await axios.post(...)]: the request ends as the server and the network
    decide. *)
Definition axios_post (result : HttpResult) : M ResponseData :=
  match result with
  | Resolved response => ret response
  | Rejected error => throw error
  end.

(** [const { user, token } = response.data.data] *)
Definition destructure (d : option Session) : M Session :=
  match d with
  | Some session => ret session
  | None => throw TypeError
  end.

(** [m || fallback] on an optional string: the empty string is falsy. *)
Definition or_else (m : option string) (fallback : string) : string :=
  match m with
  | Some text => if String.eqb text "" then fallback else text
  | None => fallback
  end.

(** [error.response?.data?.message] *)
Definition error_message (e : Error) : option string :=
  match e with
  | AxiosError response_message => response_message
  | TypeError => None
  end.

(** [login(email, password)], given how its request ends.  Writes to
    [localStorage] are taken to succeed. *)
Definition login (email password : string) (result : HttpResult) : M bool :=
  try_finally
    (try_catch
       (setLoading true ;;;
        response <- axios_post result ;;
        if success response then
          session <- destructure (data response) ;;
          setUser (Some (session_user session)) ;;;
          localStorage_setItem "vitalae_token" (session_token session) ;;;
          set_header "Authorization" ("Bearer " ++ session_token session) ;;;
          toast (toast_success "Login successful!") ;;;
          ret true
        else
          toast (toast_error (or_else (message response) "Login failed")) ;;;
          ret false)
       (fun error =>
          console_error "Login error:" ;;;
          toast (toast_error
                   (or_else (error_message error) "Login failed. Please try again.")) ;;;
          ret false))
    (setLoading false).

(** [register(userData)], given how its request ends. *)
Definition register (userData : RegisterData) (result : HttpResult) : M bool :=
  try_finally
    (try_catch
       (setLoading true ;;;
        response <- axios_post result ;;
        if success response then
          session <- destructure (data response) ;;
          setUser (Some (session_user session)) ;;;
          localStorage_setItem "vitalae_token" (session_token session) ;;;
          set_header "Authorization" ("Bearer " ++ session_token session) ;;;
          toast (toast_success "Registration successful! Welcome to Vitalae!") ;;;
          ret true
        else
          toast (toast_error (or_else (message response) "Registration failed")) ;;;
          ret false)
       (fun error =>
          console_error "Registration error:" ;;;
          toast (toast_error
                   (or_else (error_message error)
                      "Registration failed. Please try again.")) ;;;
          ret false))
    (setLoading false).

Definition logout : M unit :=
  setUser None ;;;
  localStorage_removeItem "vitalae_token" ;;;
  delete_header "Authorization" ;;;
  toast (toast_success "Logged out successfully").

(** The state of a fresh provider over a given [localStorage], after the
    effect that installs the stored token as the default header. *)
Definition init (storage : gmap string string) : Auth :=
  {| user := None;
     loading := true;
     localStorage := storage;
     headers :=
       match storage !! "vitalae_token" with
       | Some token => {[ "Authorization" := "Bearer " ++ token ]}
       | None => ∅
       end;
     toasts := [];
     console := [] |}.

(** The request of [login] failed: it threw, or it answered
    [success = false]. *)
Definition login_failed (result : HttpResult) : Prop :=
  match result with
  | Rejected _ => True
  | Resolved response => success response = false
  end.

(** *** The rest of the provider *)

(** A string is truthy when it is not empty. *)
Definition truthy (text : string) : bool := negb (String.eqb text "").

(** The provider after its first render and its first effect:
    [const token = localStorage.getItem('vitalae_token'); if (token) ...].
    It differs from [init] on a stored empty token only, which is falsy and
    installs no header. *)
Definition mounted (storage : gmap string string) : Auth :=
  {| user := None;
     loading := true;
     localStorage := storage;
     headers :=
       match storage !! "vitalae_token" with
       | Some token =>
           if truthy token then {[ "Authorization" := "Bearer " ++ token ]} else ∅
       | None => ∅
       end;
     toasts := [];
     console := [] |}.

Definition localStorage_getItem (k : string) : M (option string) :=
  fun s => (s, Returned (localStorage s !! k)).

(** [await axios.get(...)] *)
Definition axios_get (result : HttpResult) : M ResponseData :=
  match result with
  | Resolved response => ret response
  | Rejected error => throw error
  end.

(** [checkAuth()], the second effect of the provider, given how its request
    ends.  [response.data.data.user] throws on a missing
    [response.data.data]. *)
Definition checkAuth (result : HttpResult) : M unit :=
  token <- localStorage_getItem "vitalae_token" ;;
  (match token with
   | Some text =>
       if truthy text then
         try_catch
           (response <- axios_get result ;;
            if success response then
              session <- destructure (data response) ;;
              setUser (Some (session_user session))
            else
              localStorage_removeItem "vitalae_token" ;;;
              delete_header "Authorization")
           (fun error =>
              console_error "Auth check failed:" ;;;
              localStorage_removeItem "vitalae_token" ;;;
              delete_header "Authorization")
       else ret tt
   | None => ret tt
   end) ;;;
  setLoading false.

(** [Partial<User>]: each field present or absent. *)
Record PartialUser : Type := mkPartialUser {
  new_id : option string;
  new_email : option string;
  new_firstName : option string;
  new_lastName : option string;
  new_age : option Js.number;
  new_gender : option string;
  new_phoneNumber : option (option string)
}.

(** [{ ...user, ...userData }] *)
Definition spread (u : User) (userData : PartialUser) : User :=
  {| user_id := default (user_id u) (new_id userData);
     user_email := default (user_email u) (new_email userData);
     user_firstName := default (user_firstName u) (new_firstName userData);
     user_lastName := default (user_lastName u) (new_lastName userData);
     user_age := default (user_age u) (new_age userData);
     user_gender := default (user_gender u) (new_gender userData);
     user_phoneNumber := default (user_phoneNumber u) (new_phoneNumber userData) |}.

(** [updateUser(userData)]: [if (user) setUser({ ...user, ...userData })]. *)
Definition updateUser (userData : PartialUser) : M unit :=
  fun s => match user s with
           | Some u => setUser (Some (spread u userData)) s
           | None => (s, Returned tt)
           end.


(** *** The provider as a state machine

    The calls a consumer of the context can make, each with the way its
    request ends. *)
Inductive Call : Type :=
| call_login (email password : string) (result : HttpResult)
| call_register (userData : RegisterData) (result : HttpResult)
| call_logout
| call_updateUser (userData : PartialUser).

Definition perform (c : Call) (s : Auth) : Auth :=
  match c with
  | call_login email password result => fst (login email password result s)
  | call_register userData result => fst (register userData result s)
  | call_logout => fst (logout s)
  | call_updateUser userData => fst (updateUser userData s)
  end.

(** The provider once [checkAuth] has run on the mounted state. *)
Definition started (storage : gmap string string) (result : HttpResult) : Auth :=
  fst (checkAuth result (mounted storage)).

Inductive reachable (storage : gmap string string) (result : HttpResult)
  : Auth -> Prop :=
| reachable_started : reachable storage result (started storage result)
| reachable_perform s c :
    reachable storage result s -> reachable storage result (perform c s).


End AuthContext.

(** ** App.tsx: the route guard and the layout *)

Module App.

(** What [ProtectedRoute] returns. *)
Inductive Rendered : Type :=
| LoadingSpinner
| Navigate (to : string)
| Children.

(** [ProtectedRoute], on the [user] and [loading] it reads from the
    context. *)
Definition ProtectedRoute (s : AuthContext.Auth) : Rendered :=
  if AuthContext.loading s then LoadingSpinner
  else match AuthContext.user s with
       | None => Navigate "/login"
       | Some _ => Children
       end.


End App.

(** ** App.tsx (pages/AnalyticsPage) *)

Module AnalyticsPage.
Import Js.
Local Open Scope float_scope.

Record HealthData : Type := mkHealthData {
  date : string;
  heartRate : number;
  spo2 : number;
  lactate : number;
  ecgReadings : list number
}.

Arguments mkHealthData date%_string (heartRate spo2 lactate)%_float
  ecgReadings.

(** The values of [selectedMetric]. *)
Inductive MetricKey : Type := k_heartRate | k_spo2 | k_lactate | k_ecg.

Definition MetricKey_eqb (a b : MetricKey) : bool :=
  match a, b with
  | k_heartRate, k_heartRate | k_spo2, k_spo2
  | k_lactate, k_lactate | k_ecg, k_ecg => true
  | _, _ => false
  end.

(** [data[selectedMetric]] where a number is expected: [HealthData] has no
    ['ecg'] property, so that key reads [undefined], which converts to
    NaN. *)
Definition get (selectedMetric : MetricKey) (data : HealthData) : number :=
  match selectedMetric with
  | k_heartRate => heartRate data
  | k_spo2 => spo2 data
  | k_lactate => lactate data
  | k_ecg => nan
  end.

Record MetricInfo : Type := mkMetricInfo {
  key : MetricKey;
  label : string;
  unit : string;
  metric_color : string
}.

Definition metrics : list MetricInfo :=
  [ mkMetricInfo k_heartRate "Heart Rate" "BPM" "#ef4444";
    mkMetricInfo k_spo2 "SpO2" "%" "#3b82f6";
    mkMetricInfo k_lactate "Lactate" "mmol/L" "#10b981" ].

(** [metrics.find(m => m.key === selectedMetric)] *)
Definition currentMetric (selectedMetric : MetricKey) : option MetricInfo :=
  List.find (fun m => MetricKey_eqb (key m) selectedMetric) metrics.

Inductive Trend : Type := up | down.

Record Stats : Type := mkStats {
  average : number;
  min : number;
  max : number;
  trend : Trend
}.

(** The [stats] object.  On an empty [healthData] the last field reads a
    property of [undefined] and throws: there is no object then. *)
Definition stats (healthData : list HealthData) (selectedMetric : MetricKey)
    : option Stats :=
  match healthData with
  | [] => None
  | first :: _ =>
      let last := List.last healthData first in
      Some
        {| average :=
             fold_left (fun sum data => sum + get selectedMetric data) healthData 0
             / Z2F (Z.of_nat (length healthData));
           min := Math_min_spread (map (get selectedMetric) healthData);
           max := Math_max_spread (map (get selectedMetric) healthData);
           trend :=
             if gtb (get selectedMetric last) (get selectedMetric first)
             then up else down |}
  end.

(** A point of the ECG chart.  [time] is [dayIndex * 10 + readingIndex] on
    array indices, which is exact on numbers. *)
Record EcgPoint : Type := mkEcgPoint {
  time : nat;
  value : number;
  point_date : string
}.

(** [healthData.flatMap((day, dayIndex) =>
       day.ecgReadings.map((reading, readingIndex) => ...))] *)
Definition ecgData (healthData : list HealthData) : list EcgPoint :=
  concat
    (imap (fun dayIndex day =>
             imap (fun readingIndex reading =>
                     {| time := dayIndex * 10 + readingIndex;
                        value := reading;
                        point_date := date day |})
                  (ecgReadings day))
          healthData).

(** The day number in the tick label of the ECG chart:
    [Math.floor(value / 10) + 1]. *)
Definition tickDay (time : nat) : nat := time / 10 + 1.

Inductive TimeRange : Type := r7d | r30d | r90d.

(** The state of the page. *)
Record Page : Type := mkPage {
  selectedMetric : MetricKey;
  timeRange : TimeRange;
  loading : bool;
  healthData : list HealthData
}.

(** The page shows the ECG chart when [selectedMetric === 'ecg']. *)
Definition showsEcgChart (p : Page) : bool := MetricKey_eqb (selectedMetric p) k_ecg.

(** What can happen to the page.  The metric select offers one option per
    element of [metrics], and hands over the key of the chosen one. *)
Inductive Event : Type :=
| MetricSelected (option_index : nat)
| TimeRangeSelected (r : TimeRange)
| Refresh
| RefreshResolved.

Definition mount (healthData : list HealthData) : Page :=
  {| selectedMetric := k_heartRate;
     timeRange := r7d;
     loading := false;
     healthData := healthData |}.

Definition step (p : Page) (ev : Event) : Page :=
  match ev with
  | MetricSelected option_index =>
      match metrics !! option_index with
      | Some m => mkPage (key m) (timeRange p) (loading p) (healthData p)
      | None => p
      end
  | TimeRangeSelected r => mkPage (selectedMetric p) r (loading p) (healthData p)
  | Refresh =>
      if loading p then p
      else mkPage (selectedMetric p) (timeRange p) true (healthData p)
  | RefreshResolved => mkPage (selectedMetric p) (timeRange p) false (healthData p)
  end.

Inductive reachable (healthData : list HealthData) : Page -> Prop :=
| reachable_mount : reachable healthData (mount healthData)
| reachable_step p ev : reachable healthData p -> reachable healthData (step p ev).

End AnalyticsPage.

(** ** Definitions used by the statements *)

Module Order.

(** Non-NaN binary64 values are ordered like the keys below, compared
    lexicographically: the sign class first, then exponent and mantissa. *)
Definition key (x : spec_float) : option (Z * Z * Z) :=
  match x with
  | S754_nan => None
  | S754_infinity true => Some (-2, 0, 0)%Z
  | S754_finite true m e => Some (-1, - e, Zneg m)%Z
  | S754_zero _ => Some (0, 0, 0)%Z
  | S754_finite false m e => Some (1, e, Zpos m)%Z
  | S754_infinity false => Some (2, 0, 0)%Z
  end.

Definition lexcmp (k1 k2 : Z * Z * Z) : comparison :=
  let '(a1, b1, c1) := k1 in
  let '(a2, b2, c2) := k2 in
  match (a1 ?= a2)%Z with
  | Eq => match (b1 ?= b2)%Z with
          | Eq => (c1 ?= c2)%Z
          | r => r
          end
  | r => r
  end.

Definition lexlt (k1 k2 : Z * Z * Z) : Prop :=
  let '(a1, b1, c1) := k1 in
  let '(a2, b2, c2) := k2 in
  (a1 < a2 \/ (a1 = a2 /\ (b1 < b2 \/ (b1 = b2 /\ c1 < c2))))%Z.

Definition lexle (k1 k2 : Z * Z * Z) : Prop :=
  let '(a1, b1, c1) := k1 in
  let '(a2, b2, c2) := k2 in
  (a1 < a2 \/ (a1 = a2 /\ (b1 < b2 \/ (b1 = b2 /\ c1 <= c2))))%Z.

Definition ord (x : Js.number) : option (Z * Z * Z) := key (Prim2SF x).

End Order.

(** The integer reading of [handleSubmit]'s score: what each group of
    statements adds. *)
Module Points.
Import Js ProfilePage.
Local Open Scope Z_scope.

Definition agePoints (age : number) : Z :=
  if gtb age 65 then 20 else if gtb age 45 then 15 else if gtb age 35 then 10 else 0.

Definition bmiPoints (bmi : number) : Z :=
  if geb bmi 30 then 25
  else if geb bmi 25 then 15
  else if (bmi <? 18.5)%float then 10
  else 0.

Definition smokingPoints (s : SmokingStatus) : Z :=
  match s with current => 20 | former => 10 | never => 0 end.

Definition alcoholPoints (a : AlcoholConsumption) : Z :=
  match a with heavy => 15 | moderate_alcohol => 5 | none => 0 end.

Definition activityPoints (l : ActivityLevel) : Z :=
  match l with sedentary => 15 | moderate_activity => 5 | active => 0 end.

Definition flagPoints (flag : bool) (k : Z) : Z := if flag then k else 0.

Definition riskPoints (p : ProfileData) : Z :=
  agePoints (age p) + bmiPoints (bmi p) + smokingPoints (smokingStatus p)
  + alcoholPoints (alcoholConsumption p) + activityPoints (activityLevel p)
  + flagPoints (hasHypertension p) 20 + flagPoints (hasDiabetes p) 25
  + flagPoints (hasHighBP p) 15
  + flagPoints (heartDisease (familyHistory p)) 10
  + flagPoints (diabetes (familyHistory p)) 10
  + flagPoints (hypertension (familyHistory p)) 8.

(** The integers [0 .. n-1], for checks by enumeration. *)
Definition range (n : nat) : list Z := map Z.of_nat (seq 0 n).

End Points.

(** The risk score calculator as the specification words it: the additive
    point rule table, evaluated first match wins within a factor group, the
    groups summed and the sum clamped to 100. *)
Module RiskScoreCalculator.
Import Js ProfilePage.
Local Open Scope Z_scope.

Inductive Factor : Type :=
| Age | BMI | Smoking | Alcohol | Activity
| HypertensionFlag | DiabetesFlag | HighBloodPressureFlag
| FamilyHeartDisease | FamilyDiabetes | FamilyHypertension.

Definition Factor_eqb (f g : Factor) : bool :=
  match f, g with
  | Age, Age | BMI, BMI | Smoking, Smoking | Alcohol, Alcohol
  | Activity, Activity | HypertensionFlag, HypertensionFlag
  | DiabetesFlag, DiabetesFlag | HighBloodPressureFlag, HighBloodPressureFlag
  | FamilyHeartDisease, FamilyHeartDisease | FamilyDiabetes, FamilyDiabetes
  | FamilyHypertension, FamilyHypertension => true
  | _, _ => false
  end.

Definition factors : list Factor :=
  [Age; BMI; Smoking; Alcohol; Activity; HypertensionFlag; DiabetesFlag;
   HighBloodPressureFlag; FamilyHeartDisease; FamilyDiabetes; FamilyHypertension].

Record Rule : Type := mkRule {
  factor : Factor;
  condition : ProfileData -> bool;
  points : Z
}.

(** The rows of the table, top to bottom, with the points of the family
    heart disease row left open. *)
Definition table (familyHeartDiseasePoints : Z) : list Rule :=
  [ mkRule Age (fun p => gtb (age p) 65) 20;
    mkRule Age (fun p => gtb (age p) 45 && (age p <=? 65)%float) 15;
    mkRule Age (fun p => gtb (age p) 35 && (age p <=? 45)%float) 10;
    mkRule BMI (fun p => geb (bmi p) 30) 25;
    mkRule BMI (fun p => geb (bmi p) 25 && (bmi p <? 30)%float) 15;
    mkRule BMI (fun p => (bmi p <? 18.5)%float) 10;
    mkRule Smoking
      (fun p => match smokingStatus p with current => true | _ => false end) 20;
    mkRule Smoking
      (fun p => match smokingStatus p with former => true | _ => false end) 10;
    mkRule Alcohol
      (fun p => match alcoholConsumption p with heavy => true | _ => false end) 15;
    mkRule Alcohol
      (fun p => match alcoholConsumption p with
                | moderate_alcohol => true | _ => false end) 5;
    mkRule Activity
      (fun p => match activityLevel p with sedentary => true | _ => false end) 15;
    mkRule Activity
      (fun p => match activityLevel p with
                | moderate_activity => true | _ => false end) 5;
    mkRule HypertensionFlag (fun p => hasHypertension p) 20;
    mkRule DiabetesFlag (fun p => hasDiabetes p) 25;
    mkRule HighBloodPressureFlag (fun p => hasHighBP p) 15;
    mkRule FamilyHeartDisease (fun p => heartDisease (familyHistory p))
      familyHeartDiseasePoints;
    mkRule FamilyDiabetes (fun p => diabetes (familyHistory p)) 10;
    mkRule FamilyHypertension (fun p => hypertension (familyHistory p)) 8 ].

(** The table of the specification: family heart disease scores 8. *)
Definition spec_table : list Rule := table 8.

(** The table [handleSubmit] implements: family heart disease scores 10. *)
Definition submit_table : list Rule := table 10.

(** First match wins within a factor group. *)
Fixpoint first_match (f : Factor) (rules : list Rule) (p : ProfileData) : Z :=
  match rules with
  | [] => 0
  | r :: rest =>
      if Factor_eqb (factor r) f && condition r p then points r
      else first_match f rest p
  end.

(** The points of every matching row of a group. *)
Fixpoint all_matches (f : Factor) (rules : list Rule) (p : ProfileData) : Z :=
  match rules with
  | [] => 0
  | r :: rest =>
      (if Factor_eqb (factor r) f && condition r p then points r else 0)
      + all_matches f rest p
  end.

(** Groups are independent and their points sum. *)
Definition table_sum (rules : list Rule) (p : ProfileData) : Z :=
  fold_right Z.add 0 (map (fun f => first_match f rules p) factors).

(** Final score = min(sum, 100). *)
Definition table_score (rules : list Rule) (p : ProfileData) : Z :=
  Z.min (table_sum rules p) 100.

(** The output of the specification's [evaluate]. *)
Record DerivedMetrics : Type := mkDerivedMetrics {
  dm_bmi : number;
  dm_riskScore : number;
  dm_riskCategory : PredictedRisk
}.

(** The derived metrics a profile record holds. *)
Definition metrics (d : ProfileData) : DerivedMetrics :=
  {| dm_bmi := bmi d;
     dm_riskScore := healthRiskScore d;
     dm_riskCategory := predictedRisk d |}.

(** The derived metrics in the state of the page. *)
Definition displayed (p : Page) : DerivedMetrics := metrics (profileData p).

(** [evaluate(profile)] as the page realises it: the BMI effect settles the
    BMI of the height and weight, and a submission stores the score and the
    category. *)
Definition evaluate (profileData : ProfileData) : DerivedMetrics :=
  let settled := bmiEffect profileData in
  metrics (storeRisk settled settled).

(** score<30 -> low, 30<=score<60 -> medium, score>=60 -> high. *)
Definition riskCategory (score : number) : PredictedRisk :=
  if (score <? 30)%float then low
  else if (30 <=? score)%float && (score <? 60)%float then medium
  else high.

(** The label [getRiskLevel] shows for a category. *)
Definition label (c : PredictedRisk) : string :=
  match c with low => "Low" | medium => "Medium" | high => "High" end.

(** A number that holds an integer. *)
Definition is_integer (x : number) : bool :=
  match Prim2SF x with
  | S754_zero _ => true
  | S754_finite _ m (Zneg k) => (Zpos m mod 2 ^ Zpos k =? 0)
  | S754_finite _ _ _ => true
  | _ => false
  end.

(** The declared domains of a HealthProfile: age an integer in [1,120],
    height in [100,250], weight in [20,300]. *)
Definition valid (p : ProfileData) : bool :=
  is_integer (age p) && (1 <=? age p)%float && (age p <=? 120)%float
  && (100 <=? height p)%float && (height p <=? 250)%float
  && (20 <=? weight p)%float && (weight p <=? 300)%float.

(** Two records hold the same HealthProfile: they agree on every input
    field, whatever their derived fields hold. *)
Definition same_profile (p q : ProfileData) : Prop :=
  height p = height q /\ weight p = weight q /\ age p = age q
  /\ smokingStatus p = smokingStatus q
  /\ alcoholConsumption p = alcoholConsumption q
  /\ activityLevel p = activityLevel q
  /\ hasHypertension p = hasHypertension q
  /\ hasDiabetes p = hasDiabetes q
  /\ hasHighBP p = hasHighBP q
  /\ familyHistory p = familyHistory q.

(** *** Risk factors ordered by increasing risk *)

Definition smoking_rank (s : SmokingStatus) : Z :=
  match s with never => 0 | former => 1 | current => 2 end.

Definition alcohol_rank (a : AlcoholConsumption) : Z :=
  match a with none => 0 | moderate_alcohol => 1 | heavy => 2 end.

Definition activity_rank (l : ActivityLevel) : Z :=
  match l with active => 0 | moderate_activity => 1 | sedentary => 2 end.

(** [with_age], the one update [handleInputChange] is not used for below. *)
Definition with_age (a : number) (p : ProfileData) : ProfileData :=
  handleInputChange (set_age a) p.

Arguments with_age a%_float p.

(** [raised bmi_ok p q]: [q] is [p] with one risk factor raised and every
    other field held fixed.  [bmi_ok] says from which BMI on a raise of the
    BMI counts. *)
Inductive raised (bmi_ok : number -> Prop) (p : ProfileData) : ProfileData -> Prop :=
| raised_age a :
    (age p <=? a)%float = true -> raised bmi_ok p (with_age a p)
| raised_bmi b :
    bmi_ok (bmi p) -> (bmi p <=? b)%float = true -> raised bmi_ok p (with_bmi b p)
| raised_smoking s :
    smoking_rank (smokingStatus p) <= smoking_rank s ->
    raised bmi_ok p (handleInputChange (set_smokingStatus s) p)
| raised_alcohol a :
    alcohol_rank (alcoholConsumption p) <= alcohol_rank a ->
    raised bmi_ok p (handleInputChange (set_alcoholConsumption a) p)
| raised_activity l :
    activity_rank (activityLevel p) <= activity_rank l ->
    raised bmi_ok p (handleInputChange (set_activityLevel l) p)
| raised_hasHypertension :
    raised bmi_ok p (handleInputChange (set_hasHypertension true) p)
| raised_hasDiabetes :
    raised bmi_ok p (handleInputChange (set_hasDiabetes true) p)
| raised_hasHighBP :
    raised bmi_ok p (handleInputChange (set_hasHighBP true) p)
| raised_family field :
    raised bmi_ok p (handleFamilyHistoryChange field true p).

(** The score [handleSubmit] stores for a profile. *)
Definition score (p : ProfileData) : number := healthRiskScore (storeRisk p p).

(** *** BMI in exact arithmetic *)

(** [weightKg / (heightCm/100)^2] over the rationals, for a height that is
    not zero. *)
Definition bmi_exact (heightCm weightKg : number) : option Q :=
  match exact heightCm, exact weightKg with
  | Some h, Some w =>
      if Qeq_bool h 0 then None
      else Some (w / ((h / 100) * (h / 100)))%Q
  | _, _ => None
  end.

Arguments bmi_exact (heightCm weightKg)%_float.

(** [n] tenths is a rounding of [q] to one decimal place: no multiple of
    [1/10] is nearer to [q], whichever way ties go. *)
Definition rounds_to (q : Q) (n : Z) : Prop :=
  (Qabs (10 * q - inject_Z n) <= 1 # 2)%Q.

(** The signed integer a decimal string of [toFixed(1)] spells, in tenths. *)
Definition signed (neg : bool) (n : Z) : Z := if neg then - n else n.

(** *** Invariants of the page *)

(** The stored BMI is the BMI of the stored height and weight. *)
Definition bmi_settled (d : ProfileData) : Prop :=
  bmi d = computeBmi (height d) (weight d).

Record page_inv (p : Page) : Prop := mk_page_inv {
  inv_bmi : bmi_settled (profileData p);
  inv_closed : forall closed, submitted p = Some closed -> bmi_settled closed;
  inv_loading :
    loading p = match submitted p with Some _ => true | None => false end;
  inv_score :
    exists n : Z, healthRiskScore (profileData p) = Z2F n /\ 0 <= n <= 100;
  inv_category :
    predictedRisk (profileData p) = riskCategory (healthRiskScore (profileData p))
}.

End RiskScoreCalculator.

(** The [field] argument of each call of [handleInputChange], and the
    points the score gives to each label of [getBMICategory]. *)
Module Fields.
Import ProfilePage.

(** The [field] that the input of a change hands to [handleInputChange]. *)
Definition field_name (c : InputChange) : string :=
  match c with
  | set_height _ => "height"
  | set_weight _ => "weight"
  | set_age _ => "age"
  | set_smokingStatus _ => "smokingStatus"
  | set_alcoholConsumption _ => "alcoholConsumption"
  | set_activityLevel _ => "activityLevel"
  | set_hasHypertension _ => "hasHypertension"
  | set_hasDiabetes _ => "hasDiabetes"
  | set_hasHighBP _ => "hasHighBP"
  end.

(** The points [handleSubmit] adds for a BMI, by the label [getBMICategory]
    gives that BMI; used to compare the two chains of thresholds. *)
Definition category_points (category : string) : Z :=
  if String.eqb category "Underweight" then 10
  else if String.eqb category "Overweight" then 15
  else if String.eqb category "Obese" then 25
  else 0.

End Fields.

(** ** Binary64 comparisons *)

Section FloatOrder.
Import Order.
Local Open Scope Z_scope.

Lemma lexcmp_Lt k1 k2 : lexcmp k1 k2 = Lt <-> lexlt k1 k2.
Proof.
  destruct k1 as [[a1 b1] c1], k2 as [[a2 b2] c2]; unfold lexcmp, lexlt.
  destruct (Z.compare_spec a1 a2), (Z.compare_spec b1 b2), (Z.compare_spec c1 c2);
    split; intros; try discriminate; try reflexivity; lia.
Qed.

Lemma lexcmp_not_Gt k1 k2 : lexcmp k1 k2 <> Gt <-> lexle k1 k2.
Proof.
  destruct k1 as [[a1 b1] c1], k2 as [[a2 b2] c2]; unfold lexcmp, lexle.
  destruct (Z.compare_spec a1 a2), (Z.compare_spec b1 b2), (Z.compare_spec c1 c2);
    split; intros; try discriminate; try congruence; lia.
Qed.

Lemma SFcompare_key x y kx ky :
  key x = Some kx -> key y = Some ky -> SFcompare x y = Some (lexcmp kx ky).
Proof.
  destruct x as [sx|sx| |sx mx ex], y as [sy|sy| |sy my ey];
    try destruct sx; try destruct sy; simpl; intros Hx Hy;
    try discriminate; inversion Hx; inversion Hy; subst; clear Hx Hy;
    try reflexivity; cbn -[Z.compare].
  - rewrite Z.compare_opp. rewrite (Z.compare_antisym ex ey).
    destruct (ex ?= ey); reflexivity.
Qed.

Lemma SFcompare_nan x y :
  key x = None \/ key y = None -> SFcompare x y = None.
Proof.
  destruct x as [sx|sx| |sx mx ex], y as [sy|sy| |sy my ey];
    try destruct sx; try destruct sy; simpl; intros [H|H];
    try discriminate; reflexivity.
Qed.

Lemma ltb_ord x y :
  (x <? y)%float = true <->
  exists kx ky, ord x = Some kx /\ ord y = Some ky /\ lexlt kx ky.
Proof.
  rewrite ltb_spec. unfold SFltb, ord.
  destruct (key (Prim2SF x)) as [kx|] eqn:Hx.
  - destruct (key (Prim2SF y)) as [ky|] eqn:Hy.
    + rewrite (SFcompare_key _ _ _ _ Hx Hy).
      split.
      * intros H. exists kx, ky. repeat split. apply lexcmp_Lt.
        destruct (lexcmp kx ky); congruence.
      * intros (kx' & ky' & Ex & Ey & H). inversion Ex; inversion Ey; subst.
        apply lexcmp_Lt in H. rewrite H. reflexivity.
    + rewrite SFcompare_nan by (right; assumption).
      split; [discriminate|]. intros (kx' & ky' & _ & Ey & _). discriminate.
  - rewrite SFcompare_nan by (left; assumption).
    split; [discriminate|]. intros (kx' & ky' & Ex & _). discriminate.
Qed.

Lemma leb_ord x y :
  (x <=? y)%float = true <->
  exists kx ky, ord x = Some kx /\ ord y = Some ky /\ lexle kx ky.
Proof.
  rewrite leb_spec. unfold SFleb, ord.
  destruct (key (Prim2SF x)) as [kx|] eqn:Hx.
  - destruct (key (Prim2SF y)) as [ky|] eqn:Hy.
    + rewrite (SFcompare_key _ _ _ _ Hx Hy).
      split.
      * intros H. exists kx, ky. repeat split. apply lexcmp_not_Gt.
        destruct (lexcmp kx ky); congruence.
      * intros (kx' & ky' & Ex & Ey & H). inversion Ex; inversion Ey; subst.
        apply lexcmp_not_Gt in H. destruct (lexcmp kx' ky'); congruence.
    + rewrite SFcompare_nan by (right; assumption).
      split; [discriminate|]. intros (kx' & ky' & _ & Ey & _). discriminate.
  - rewrite SFcompare_nan by (left; assumption).
    split; [discriminate|]. intros (kx' & ky' & Ex & _). discriminate.
Qed.

(** [c < x] and [x <= y] give [c < y]. *)
Lemma ltb_leb_trans x y z :
  (x <? y)%float = true -> (y <=? z)%float = true -> (x <? z)%float = true.
Proof.
  rewrite !ltb_ord, leb_ord.
  intros (kx & ky & Hx & Hy & H1) (ky' & kz & Hy' & Hz & H2).
  rewrite Hy in Hy'. inversion Hy'; subst ky'.
  exists kx, kz. repeat split; try assumption.
  destruct kx as [[a1 b1] c1], ky as [[a2 b2] c2], kz as [[a3 b3] c3].
  unfold lexlt, lexle in *. lia.
Qed.

Lemma leb_ltb_trans x y z :
  (x <=? y)%float = true -> (y <? z)%float = true -> (x <? z)%float = true.
Proof.
  rewrite !ltb_ord, leb_ord.
  intros (kx & ky & Hx & Hy & H1) (ky' & kz & Hy' & Hz & H2).
  rewrite Hy in Hy'. inversion Hy'; subst ky'.
  exists kx, kz. repeat split; try assumption.
  destruct kx as [[a1 b1] c1], ky as [[a2 b2] c2], kz as [[a3 b3] c3].
  unfold lexlt, lexle in *. lia.
Qed.

Lemma leb_trans x y z :
  (x <=? y)%float = true -> (y <=? z)%float = true -> (x <=? z)%float = true.
Proof.
  rewrite !leb_ord.
  intros (kx & ky & Hx & Hy & H1) (ky' & kz & Hy' & Hz & H2).
  rewrite Hy in Hy'. inversion Hy'; subst ky'.
  exists kx, kz. repeat split; try assumption.
  destruct kx as [[a1 b1] c1], ky as [[a2 b2] c2], kz as [[a3 b3] c3].
  unfold lexle in *. lia.
Qed.

(** [x < y] excludes [y <= x]. *)
Lemma ltb_not_leb x y : (x <? y)%float = true -> (y <=? x)%float = false.
Proof.
  intros H. destruct (y <=? x)%float eqn:E; [|reflexivity].
  apply ltb_ord in H. apply leb_ord in E.
  destruct H as (kx & ky & Hx & Hy & H1), E as (ky' & kx' & Hy' & Hx' & H2).
  rewrite Hy in Hy'. rewrite Hx in Hx'. inversion Hy'; inversion Hx'; subst.
  destruct kx' as [[a1 b1] c1], ky' as [[a2 b2] c2].
  unfold lexlt, lexle in *. lia.
Qed.

(** Two numbers that are not NaN compare one way or the other. *)
Lemma not_ltb_leb x y kx ky :
  ord x = Some kx -> ord y = Some ky ->
  (x <? y)%float = false -> (y <=? x)%float = true.
Proof.
  intros Hx Hy H. apply leb_ord. exists ky, kx. repeat split; try assumption.
  destruct (lexcmp kx ky) eqn:E.
  - assert (L : lexle kx ky) by (apply lexcmp_not_Gt; congruence).
    assert (N : ~ lexlt kx ky) by (rewrite <- lexcmp_Lt; congruence).
    destruct kx as [[a1 b1] c1], ky as [[a2 b2] c2].
    unfold lexlt, lexle in *. lia.
  - exfalso. apply lexcmp_Lt in E.
    assert (T : (x <? y)%float = true) by (apply ltb_ord; eauto).
    congruence.
  - assert (N : ~ lexle kx ky) by (rewrite <- lexcmp_not_Gt; tauto).
    destruct kx as [[a1 b1] c1], ky as [[a2 b2] c2].
    unfold lexlt, lexle in *. lia.
Qed.

Lemma not_leb_ltb x y kx ky :
  ord x = Some kx -> ord y = Some ky ->
  (x <=? y)%float = false -> (y <? x)%float = true.
Proof.
  intros Hx Hy H. apply ltb_ord. exists ky, kx. repeat split; try assumption.
  assert (N : ~ lexle kx ky).
  { intros L. assert (T : (x <=? y)%float = true) by (apply leb_ord; eauto).
    congruence. }
  destruct kx as [[a1 b1] c1], ky as [[a2 b2] c2].
  unfold lexlt, lexle in *. lia.
Qed.

Lemma ltb_ord_r x y : (x <? y)%float = true -> exists ky, ord y = Some ky.
Proof. intros H. apply ltb_ord in H. destruct H as (? & ky & _ & H & _). eauto. Qed.

Lemma ltb_ord_l x y : (x <? y)%float = true -> exists kx, ord x = Some kx.
Proof. intros H. apply ltb_ord in H. destruct H as (kx & ? & H & _). eauto. Qed.

Lemma leb_ord_r x y : (x <=? y)%float = true -> exists ky, ord y = Some ky.
Proof. intros H. apply leb_ord in H. destruct H as (? & ky & _ & H & _). eauto. Qed.

Lemma leb_ord_l x y : (x <=? y)%float = true -> exists kx, ord x = Some kx.
Proof. intros H. apply leb_ord in H. destruct H as (kx & ? & H & _). eauto. Qed.

End FloatOrder.

(** ** The score of [handleSubmit] is an exact integer *)

Section ScoreExact.
Import Js ProfilePage Points.
Local Open Scope Z_scope.

Lemma range_In z n : 0 <= z < Z.of_nat n -> In z (range n).
Proof.
  intros H. unfold range. replace z with (Z.of_nat (Z.to_nat z)) by lia.
  apply in_map, in_seq. lia.
Qed.

Lemma forallb_range (P : Z -> bool) n :
  forallb P (range n) = true -> forall z, 0 <= z < Z.of_nat n -> P z = true.
Proof.
  intros H z Hz. rewrite forallb_forall in H. apply H, range_In, Hz.
Qed.

(** Binary64 addition is exact on the integers the score goes through. *)
Lemma add_exact z k :
  0 <= z <= 200 -> 0 <= k <= 25 -> (Z2F z + Z2F k)%float = Z2F (z + k).
Proof.
  intros Hz Hk.
  assert (C : forallb (fun z => forallb (fun k =>
                PrimFloat.Leibniz.eqb (Z2F z + Z2F k)%float (Z2F (z + k)))
                (range 26)) (range 201) = true) by (vm_compute; reflexivity).
  pose proof (forallb_range _ _ C z ltac:(lia)) as C1. cbv beta in C1.
  pose proof (forallb_range _ _ C1 k ltac:(lia)) as C2. cbv beta in C2.
  apply FloatAxioms.Leibniz.eqb_spec in C2. exact C2.
Qed.

Lemma agePoints_bounds a : 0 <= agePoints a <= 20.
Proof. unfold agePoints. repeat destruct (gtb _ _); lia. Qed.

Lemma bmiPoints_bounds b : 0 <= bmiPoints b <= 25.
Proof.
  unfold bmiPoints.
  repeat match goal with |- context [if ?c then _ else _] => destruct c end; lia.
Qed.

Lemma smokingPoints_bounds s : 0 <= smokingPoints s <= 20.
Proof. destruct s; simpl; lia. Qed.

Lemma alcoholPoints_bounds a : 0 <= alcoholPoints a <= 15.
Proof. destruct a; simpl; lia. Qed.

Lemma activityPoints_bounds l : 0 <= activityPoints l <= 15.
Proof. destruct l; simpl; lia. Qed.

Lemma flagPoints_bounds b k : 0 <= k -> 0 <= flagPoints b k <= k.
Proof. destruct b; simpl; lia. Qed.

Lemma riskPoints_bounds p : 0 <= riskPoints p <= 183.
Proof.
  unfold riskPoints.
  pose proof (agePoints_bounds (age p)).
  pose proof (bmiPoints_bounds (bmi p)).
  pose proof (smokingPoints_bounds (smokingStatus p)).
  pose proof (alcoholPoints_bounds (alcoholConsumption p)).
  pose proof (activityPoints_bounds (activityLevel p)).
  pose proof (flagPoints_bounds (hasHypertension p) 20).
  pose proof (flagPoints_bounds (hasDiabetes p) 25).
  pose proof (flagPoints_bounds (hasHighBP p) 15).
  pose proof (flagPoints_bounds (heartDisease (familyHistory p)) 10).
  pose proof (flagPoints_bounds (diabetes (familyHistory p)) 10).
  pose proof (flagPoints_bounds (hypertension (familyHistory p)) 8).
  lia.
Qed.

Lemma age_stage z a :
  0 <= z <= 175 ->
  (if gtb a 65 then Z2F z + 20
   else if gtb a 45 then Z2F z + 15
   else if gtb a 35 then Z2F z + 10
   else Z2F z)%float = Z2F (z + agePoints a).
Proof.
  intros Hz. unfold agePoints.
  destruct (gtb a 65); [exact (add_exact z 20 ltac:(lia) ltac:(lia))|].
  destruct (gtb a 45); [exact (add_exact z 15 ltac:(lia) ltac:(lia))|].
  destruct (gtb a 35); [exact (add_exact z 10 ltac:(lia) ltac:(lia))|].
  f_equal; lia.
Qed.

Lemma bmi_stage z b :
  0 <= z <= 175 ->
  (if geb b 30 then Z2F z + 25
   else if geb b 25 then Z2F z + 15
   else if b <? 18.5 then Z2F z + 10
   else Z2F z)%float = Z2F (z + bmiPoints b).
Proof.
  intros Hz. unfold bmiPoints.
  destruct (geb b 30); [exact (add_exact z 25 ltac:(lia) ltac:(lia))|].
  destruct (geb b 25); [exact (add_exact z 15 ltac:(lia) ltac:(lia))|].
  destruct (b <? 18.5)%float; [exact (add_exact z 10 ltac:(lia) ltac:(lia))|].
  f_equal; lia.
Qed.

Lemma smoking_stage z s :
  0 <= z <= 175 ->
  match s with
  | current => (Z2F z + 20)%float
  | former => (Z2F z + 10)%float
  | never => Z2F z
  end = Z2F (z + smokingPoints s).
Proof.
  intros Hz. destruct s; simpl;
    [f_equal; lia | exact (add_exact z 10 ltac:(lia) ltac:(lia))
    | exact (add_exact z 20 ltac:(lia) ltac:(lia))].
Qed.

Lemma alcohol_stage z a :
  0 <= z <= 175 ->
  match a with
  | heavy => (Z2F z + 15)%float
  | moderate_alcohol => (Z2F z + 5)%float
  | none => Z2F z
  end = Z2F (z + alcoholPoints a).
Proof.
  intros Hz. destruct a; simpl;
    [f_equal; lia | exact (add_exact z 5 ltac:(lia) ltac:(lia))
    | exact (add_exact z 15 ltac:(lia) ltac:(lia))].
Qed.

Lemma activity_stage z l :
  0 <= z <= 175 ->
  match l with
  | sedentary => (Z2F z + 15)%float
  | moderate_activity => (Z2F z + 5)%float
  | active => Z2F z
  end = Z2F (z + activityPoints l).
Proof.
  intros Hz. destruct l; simpl;
    [exact (add_exact z 15 ltac:(lia) ltac:(lia))
    | exact (add_exact z 5 ltac:(lia) ltac:(lia)) | f_equal; lia].
Qed.

Lemma flag_stage z (flag : bool) k :
  0 <= z <= 175 -> 0 <= k <= 25 ->
  (if flag then (Z2F z + Z2F k)%float else Z2F z) = Z2F (z + flagPoints flag k).
Proof.
  intros Hz Hk. destruct flag; simpl.
  - apply add_exact; lia.
  - f_equal; lia.
Qed.

(** The score [handleSubmit] accumulates is the number of the integer
    [riskPoints]. *)
Lemma riskScore_exact p : riskScore p = Z2F (riskPoints p).
Proof.
  pose proof (agePoints_bounds (age p)).
  pose proof (bmiPoints_bounds (bmi p)).
  pose proof (smokingPoints_bounds (smokingStatus p)).
  pose proof (alcoholPoints_bounds (alcoholConsumption p)).
  pose proof (activityPoints_bounds (activityLevel p)).
  pose proof (flagPoints_bounds (hasHypertension p) 20).
  pose proof (flagPoints_bounds (hasDiabetes p) 25).
  pose proof (flagPoints_bounds (hasHighBP p) 15).
  pose proof (flagPoints_bounds (heartDisease (familyHistory p)) 10).
  pose proof (flagPoints_bounds (diabetes (familyHistory p)) 10).
  pose proof (flagPoints_bounds (hypertension (familyHistory p)) 8).
  unfold riskScore. cbv zeta.
  change 0%float with (Z2F 0).
  rewrite (age_stage 0 (age p)) by lia.
  rewrite bmi_stage by lia.
  rewrite smoking_stage by lia.
  rewrite alcohol_stage by lia.
  rewrite activity_stage by lia.
  rewrite (flag_stage _ (hasHypertension p) 20) by lia.
  rewrite (flag_stage _ (hasDiabetes p) 25) by lia.
  rewrite (flag_stage _ (hasHighBP p) 15) by lia.
  rewrite (flag_stage _ (heartDisease (familyHistory p)) 10) by lia.
  rewrite (flag_stage _ (diabetes (familyHistory p)) 10) by lia.
  rewrite (flag_stage _ (hypertension (familyHistory p)) 8) by lia.
  unfold riskPoints. f_equal.
Qed.

Lemma Math_min_exact z :
  0 <= z <= 200 -> Math_min (Z2F z) 100 = Z2F (Z.min z 100).
Proof.
  intros Hz.
  assert (C : forallb (fun z =>
                PrimFloat.Leibniz.eqb (Math_min (Z2F z) 100) (Z2F (Z.min z 100)))
                (range 201) = true) by (vm_compute; reflexivity).
  pose proof (forallb_range _ _ C z ltac:(lia)) as C1. cbv beta in C1.
  apply FloatAxioms.Leibniz.eqb_spec in C1. exact C1.
Qed.

Lemma ltb_exact z k :
  0 <= z <= 200 -> 0 <= k <= 200 -> (Z2F z <? Z2F k)%float = (z <? k).
Proof.
  intros Hz Hk.
  assert (C : forallb (fun z => forallb (fun k =>
                Bool.eqb (Z2F z <? Z2F k)%float (z <? k))
                (range 201)) (range 201) = true) by (vm_compute; reflexivity).
  pose proof (forallb_range _ _ C z ltac:(lia)) as C1. cbv beta in C1.
  pose proof (forallb_range _ _ C1 k ltac:(lia)) as C2. cbv beta in C2.
  apply Bool.eqb_prop in C2. exact C2.
Qed.

Lemma leb_exact z k :
  0 <= z <= 200 -> 0 <= k <= 200 -> (Z2F z <=? Z2F k)%float = (z <=? k).
Proof.
  intros Hz Hk.
  assert (C : forallb (fun z => forallb (fun k =>
                Bool.eqb (Z2F z <=? Z2F k)%float (z <=? k))
                (range 201)) (range 201) = true) by (vm_compute; reflexivity).
  pose proof (forallb_range _ _ C z ltac:(lia)) as C1. cbv beta in C1.
  pose proof (forallb_range _ _ C1 k ltac:(lia)) as C2. cbv beta in C2.
  apply Bool.eqb_prop in C2. exact C2.
Qed.

(** Distinct small integers are distinct numbers. *)
Lemma Z2F_inj z k : 0 <= z <= 200 -> 0 <= k <= 200 -> Z2F z = Z2F k -> z = k.
Proof.
  intros Hz Hk E.
  pose proof (leb_exact z k Hz Hk) as L1. pose proof (leb_exact k z Hk Hz) as L2.
  rewrite E in L1, L2. rewrite L1 in L2.
  destruct (Z.leb_spec z k), (Z.leb_spec k z); try discriminate; lia.
Qed.

Lemma predictRisk_exact z :
  0 <= z <= 200 ->
  predictRisk (Z2F z) = if z <? 30 then low else if z <? 60 then medium else high.
Proof.
  intros Hz. unfold predictRisk.
  rewrite <- (ltb_exact z 30), <- (ltb_exact z 60) by lia. reflexivity.
Qed.

Lemma storeRisk_score submitted prev :
  healthRiskScore (storeRisk submitted prev)
  = Z2F (Z.min (riskPoints submitted) 100).
Proof.
  pose proof (riskPoints_bounds submitted).
  unfold storeRisk; simpl. rewrite riskScore_exact. apply Math_min_exact. lia.
Qed.

Lemma storeRisk_category submitted prev :
  predictedRisk (storeRisk submitted prev)
  = if riskPoints submitted <? 30 then low
    else if riskPoints submitted <? 60 then medium else high.
Proof.
  pose proof (riskPoints_bounds submitted).
  unfold storeRisk; simpl. rewrite riskScore_exact. apply predictRisk_exact. lia.
Qed.

End ScoreExact.

(** ** The point rule table *)

Section Table.
Import Js ProfilePage Points RiskScoreCalculator Order.
Local Open Scope Z_scope.

(** Below the upper threshold and above the lower one: the range check of
    the second and third age rows. *)
Lemma gt_cascade a hi lo khi :
  ord hi = Some khi -> gtb a hi = false -> gtb a lo = true ->
  (a <=? hi)%float = true.
Proof.
  unfold gtb. intros Hhi Hgt Hlo.
  destruct (ltb_ord_r _ _ Hlo) as [ka Ha].
  exact (not_ltb_leb hi a khi ka Hhi Ha Hgt).
Qed.

Lemma ge_cascade b hi lo khi :
  ord hi = Some khi -> geb b hi = false -> geb b lo = true ->
  (b <? hi)%float = true.
Proof.
  unfold geb. intros Hhi Hge Hlo.
  destruct (leb_ord_r _ _ Hlo) as [kb Hb].
  exact (not_leb_ltb hi b khi kb Hhi Hb Hge).
Qed.

Lemma age_rows a :
  (if gtb a 65 then 20
   else if gtb a 45 && (a <=? 65)%float then 15
   else if gtb a 35 && (a <=? 45)%float then 10
   else 0) = agePoints a.
Proof.
  unfold agePoints.
  destruct (gtb a 65) eqn:E65; [reflexivity|].
  destruct (gtb a 45) eqn:E45; simpl.
  - rewrite (gt_cascade a 65%float 45%float _ eq_refl E65 E45). reflexivity.
  - destruct (gtb a 35) eqn:E35; simpl; [|reflexivity].
    rewrite (gt_cascade a 45%float 35%float _ eq_refl E45 E35). reflexivity.
Qed.

Lemma bmi_rows b :
  (if geb b 30 then 25
   else if geb b 25 && (b <? 30)%float then 15
   else if (b <? 18.5)%float then 10
   else 0) = bmiPoints b.
Proof.
  unfold bmiPoints.
  destruct (geb b 30) eqn:E30; [reflexivity|].
  destruct (geb b 25) eqn:E25; simpl; [|reflexivity].
  rewrite (ge_cascade b 30%float 25%float _ eq_refl E30 E25). reflexivity.
Qed.

(** The table with 10 points for family heart disease sums to the integer
    reading of [handleSubmit]. *)
Lemma table_sum_submit p : table_sum submit_table p = riskPoints p.
Proof.
  unfold table_sum, submit_table, table, factors.
  cbn [map fold_right first_match Factor_eqb factor condition points andb].
  rewrite age_rows, bmi_rows. unfold riskPoints.
  destruct (smokingStatus p), (alcoholConsumption p), (activityLevel p);
    cbn [smokingPoints alcoholPoints activityPoints]; unfold flagPoints; lia.
Qed.

(** The rows of a group exclude one another on the age and the BMI: at
    most one row of the table matches, so that first match and every match
    agree. *)
Lemma table_rows_exclusive k f p :
  all_matches f (table k) p = first_match f (table k) p.
Proof.
  unfold table.
  cbn [all_matches first_match factor condition points].
  destruct f; cbn [Factor_eqb andb];
    try (destruct (smokingStatus p); lia);
    try (destruct (alcoholConsumption p); lia);
    try (destruct (activityLevel p); lia);
    try (repeat match goal with |- context [if ?c then _ else _] => destruct c end; lia).
  - destruct (gtb (age p) 65) eqn:E65.
    + assert (L : (age p <=? 65)%float = false) by (apply ltb_not_leb; exact E65).
      rewrite L, andb_false_r.
      assert (G : gtb (age p) 45 = true).
      { unfold gtb in *. apply (leb_ltb_trans 45%float 65%float); [reflexivity | exact E65]. }
      assert (L' : (age p <=? 45)%float = false) by (apply ltb_not_leb; exact G).
      rewrite L', andb_false_r. lia.
    + destruct (gtb (age p) 45) eqn:E45; cbn [andb].
      * assert (L' : (age p <=? 45)%float = false) by (apply ltb_not_leb; exact E45).
        rewrite L', andb_false_r.
        destruct (age p <=? 65)%float; lia.
      * destruct (gtb (age p) 35 && (age p <=? 45)%float); lia.
  - destruct (geb (bmi p) 30) eqn:E30.
    + assert (L : (bmi p <? 30)%float = false).
      { destruct (bmi p <? 30)%float eqn:E; [|reflexivity].
        apply ltb_not_leb in E. unfold geb in E30. congruence. }
      assert (L' : (bmi p <? 18.5)%float = false).
      { destruct (bmi p <? 18.5)%float eqn:E; [|reflexivity].
        assert (T : (bmi p <? 30)%float = true)
          by (apply (ltb_leb_trans _ 18.5%float); [exact E | reflexivity]).
        congruence. }
      rewrite L, L', andb_false_r. lia.
    + destruct (geb (bmi p) 25) eqn:E25; cbn [andb].
      * assert (L' : (bmi p <? 18.5)%float = false).
        { destruct (bmi p <? 18.5)%float eqn:E; [|reflexivity].
          assert (T : (bmi p <? 25)%float = true)
            by (apply (ltb_leb_trans _ 18.5%float); [exact E | reflexivity]).
          apply ltb_not_leb in T. unfold geb in E25. congruence. }
        rewrite L'. destruct (bmi p <? 30)%float; lia.
      * destruct (bmi p <? 18.5)%float; lia.
Qed.

End Table.

(** ** The score and the category of a submission *)

Ltac float_neq :=
  let H := fresh in
  intro H; apply FloatAxioms.Leibniz.eqb_spec in H; vm_compute in H; discriminate H.

Section Submission.
Import Js ProfilePage Points RiskScoreCalculator Order.
Local Open Scope Z_scope.

Lemma riskCategory_exact z :
  0 <= z <= 200 ->
  riskCategory (Z2F z) = if z <? 30 then low else if z <? 60 then medium else high.
Proof.
  intros Hz. unfold riskCategory.
  change 30%float with (Z2F 30). change 60%float with (Z2F 60).
  rewrite !ltb_exact, leb_exact by lia.
  destruct (Z.ltb_spec z 30), (Z.leb_spec 30 z), (Z.ltb_spec z 60);
    try reflexivity; lia.
Qed.

Lemma getRiskLevel_exact z :
  0 <= z <= 200 ->
  level (ProfilePage.getRiskLevel (Z2F z))
  = label (if z <? 30 then low else if z <? 60 then medium else high).
Proof.
  intros Hz. unfold ProfilePage.getRiskLevel.
  change 30%float with (Z2F 30). change 60%float with (Z2F 60).
  rewrite !ltb_exact by lia.
  destruct (z <? 30); [reflexivity|]. destruct (z <? 60); reflexivity.
Qed.

Lemma min_category z :
  0 <= z ->
  (if Z.min z 100 <? 30 then low else if Z.min z 100 <? 60 then medium else high)
  = (if z <? 30 then low else if z <? 60 then medium else high).
Proof.
  intros Hz.
  destruct (Z.ltb_spec (Z.min z 100) 30), (Z.ltb_spec z 30),
    (Z.ltb_spec (Z.min z 100) 60), (Z.ltb_spec z 60); try reflexivity; lia.
Qed.

Lemma agePoints_mono a a' :
  (a <=? a')%float = true -> agePoints a <= agePoints a'.
Proof.
  intros H. unfold agePoints, gtb.
  assert (T : forall c, (c <? a)%float = true -> (c <? a')%float = true)
    by (intros c Hc; exact (ltb_leb_trans c a a' Hc H)).
  destruct (65 <? a)%float eqn:E65; [rewrite (T _ E65); lia|].
  destruct (45 <? a)%float eqn:E45.
  { rewrite (T _ E45). destruct (65 <? a')%float; lia. }
  destruct (35 <? a)%float eqn:E35.
  { rewrite (T _ E35). destruct (65 <? a')%float, (45 <? a')%float; lia. }
  destruct (65 <? a')%float, (45 <? a')%float, (35 <? a')%float; lia.
Qed.

(** From 18.5 upwards a larger BMI never scores less. *)
Lemma bmiPoints_mono b b' :
  (18.5 <=? b)%float = true -> (b <=? b')%float = true ->
  bmiPoints b <= bmiPoints b'.
Proof.
  intros Hlo H. unfold bmiPoints, geb.
  assert (T : forall c, (c <=? b)%float = true -> (c <=? b')%float = true)
    by (intros c Hc; exact (leb_trans c b b' Hc H)).
  assert (U : (b <? 18.5)%float = false).
  { destruct (b <? 18.5)%float eqn:E; [|reflexivity].
    apply ltb_not_leb in E. congruence. }
  rewrite U.
  destruct (30 <=? b)%float eqn:E30; [rewrite (T _ E30); lia|].
  destruct (25 <=? b)%float eqn:E25.
  { rewrite (T _ E25). destruct (30 <=? b')%float; lia. }
  destruct (30 <=? b')%float, (25 <=? b')%float, (b' <? 18.5)%float; lia.
Qed.

Lemma smokingPoints_mono s s' :
  smoking_rank s <= smoking_rank s' -> smokingPoints s <= smokingPoints s'.
Proof. destruct s, s'; simpl; lia. Qed.

Lemma alcoholPoints_mono a a' :
  alcohol_rank a <= alcohol_rank a' -> alcoholPoints a <= alcoholPoints a'.
Proof. destruct a, a'; simpl; lia. Qed.

Lemma activityPoints_mono l l' :
  activity_rank l <= activity_rank l' -> activityPoints l <= activityPoints l'.
Proof. destruct l, l'; simpl; lia. Qed.

Lemma flagPoints_true flag k : 0 <= k -> flagPoints flag k <= flagPoints true k.
Proof. destruct flag; simpl; lia. Qed.

Lemma raised_points p q :
  raised (fun b => (18.5 <=? b)%float = true) p q -> riskPoints p <= riskPoints q.
Proof.
  intros R. destruct R; unfold riskPoints, with_age; cbn [handleInputChange
    handleFamilyHistoryChange with_bmi age bmi smokingStatus alcoholConsumption
    activityLevel hasHypertension hasDiabetes hasHighBP familyHistory
    heartDisease diabetes hypertension].
  - pose proof (agePoints_mono _ _ H). lia.
  - pose proof (bmiPoints_mono _ _ H H0). lia.
  - pose proof (smokingPoints_mono _ _ H). lia.
  - pose proof (alcoholPoints_mono _ _ H). lia.
  - pose proof (activityPoints_mono _ _ H). lia.
  - pose proof (flagPoints_true (hasHypertension p) 20). lia.
  - pose proof (flagPoints_true (hasDiabetes p) 25). lia.
  - pose proof (flagPoints_true (hasHighBP p) 15). lia.
  - pose proof (flagPoints_true (heartDisease (familyHistory p)) 10).
    pose proof (flagPoints_true (diabetes (familyHistory p)) 10).
    pose proof (flagPoints_true (hypertension (familyHistory p)) 8).
    destruct field; lia.
Qed.

(** The numbers of the integers 0 to 100 hold integers and lie between the
    numbers 0 and 100. *)
Lemma Z2F_in_range z :
  0 <= z <= 100 ->
  is_integer (Z2F z) = true
  /\ (0 <=? Z2F z)%float = true /\ (Z2F z <=? 100)%float = true.
Proof.
  intros Hz.
  assert (C : forallb (fun z => is_integer (Z2F z) && (0 <=? Z2F z)%float
                                && (Z2F z <=? 100)%float) (range 101) = true)
    by (vm_compute; reflexivity).
  pose proof (forallb_range _ _ C z ltac:(lia)) as C1. cbv beta in C1.
  apply andb_prop in C1. destruct C1 as [C1 C3].
  apply andb_prop in C1. destruct C1 as [C1 C2]. auto.
Qed.

Lemma score_exact p : score p = Z2F (Z.min (riskPoints p) 100).
Proof. apply storeRisk_score. Qed.

End Submission.

(** ** The profile page as a state machine *)

Section PageMachine.
Import Js ProfilePage Points RiskScoreCalculator Order.
Local Open Scope Z_scope.

Lemma Object_is_refl x : Object_is x x = true.
Proof. apply FloatAxioms.Leibniz.eqb_spec. reflexivity. Qed.

Lemma Object_is_eq x y : Object_is x y = true -> x = y.
Proof. apply FloatAxioms.Leibniz.eqb_spec. Qed.

(** A render with the same height and weight runs no effect. *)
Lemma commit_same_deps rendered next :
  height next = height rendered -> weight next = weight rendered ->
  commit rendered next = next.
Proof.
  intros Hh Hw. unfold commit, depsChanged.
  rewrite Hh, Hw, !Object_is_refl. reflexivity.
Qed.

Lemma commit_settled rendered next :
  bmi_settled rendered -> bmi next = bmi rendered ->
  bmi_settled (commit rendered next).
Proof.
  unfold bmi_settled, commit, depsChanged. intros S B.
  destruct (Object_is (height rendered) (height next)) eqn:Eh;
    [destruct (Object_is (weight rendered) (weight next)) eqn:Ew|];
    cbn [andb negb]; try reflexivity.
  apply Object_is_eq in Eh, Ew. rewrite B, S, Eh, Ew. reflexivity.
Qed.

(** The effect and the commit only ever write [bmi]. *)
Lemma commit_fields rendered next :
  let d := commit rendered next in
  height d = height next /\ weight d = weight next /\ age d = age next
  /\ smokingStatus d = smokingStatus next
  /\ alcoholConsumption d = alcoholConsumption next
  /\ activityLevel d = activityLevel next
  /\ hasHypertension d = hasHypertension next
  /\ hasDiabetes d = hasDiabetes next
  /\ hasHighBP d = hasHighBP next
  /\ familyHistory d = familyHistory next
  /\ healthRiskScore d = healthRiskScore next
  /\ predictedRisk d = predictedRisk next.
Proof.
  unfold commit. destruct (depsChanged rendered next); cbn; repeat split.
Qed.

Lemma commit_score rendered next :
  healthRiskScore (commit rendered next) = healthRiskScore next.
Proof. apply (commit_fields rendered next). Qed.

Lemma commit_category rendered next :
  predictedRisk (commit rendered next) = predictedRisk next.
Proof. apply (commit_fields rendered next). Qed.

Lemma storeRisk_consistent closed prev :
  predictedRisk (storeRisk closed prev)
  = riskCategory (healthRiskScore (storeRisk closed prev)).
Proof.
  pose proof (riskPoints_bounds closed).
  rewrite storeRisk_score, storeRisk_category, riskCategory_exact by lia.
  symmetry. apply min_category. lia.
Qed.

Lemma storeRisk_range closed prev :
  exists n : Z, healthRiskScore (storeRisk closed prev) = Z2F n /\ 0 <= n <= 100.
Proof.
  pose proof (riskPoints_bounds closed).
  exists (Z.min (riskPoints closed) 100). split; [apply storeRisk_score | lia].
Qed.

Lemma mount_inv user : page_inv (mount user).
Proof.
  split; cbn.
  - reflexivity.
  - discriminate.
  - reflexivity.
  - exists 25. split; [reflexivity | lia].
  - reflexivity.
Qed.

Lemma step_inv p ev : page_inv p -> page_inv (step p ev).
Proof.
  intros [Ib Ic Il Is Ik]. destruct ev; cbn [step].
  - split; cbn [profileData loading submitted]; try assumption.
    + apply commit_settled; [assumption | reflexivity].
    + rewrite commit_score. exact Is.
    + rewrite commit_score, commit_category. exact Ik.
  - split; cbn [profileData loading submitted]; try assumption.
    + apply commit_settled; [assumption | reflexivity].
    + rewrite commit_score. exact Is.
    + rewrite commit_score, commit_category. exact Ik.
  - destruct (loading p) eqn:L; [split; try assumption; congruence|].
    split; cbn [profileData loading submitted]; try assumption.
    + intros closed E. inversion E; subst. assumption.
    + reflexivity.
  - destruct (submitted p) as [closed|] eqn:S; [|split; try assumption; now rewrite S].
    split; cbn [profileData loading submitted].
    + apply commit_settled; [assumption | reflexivity].
    + discriminate.
    + reflexivity.
    + rewrite commit_score. apply storeRisk_range.
    + rewrite commit_score, commit_category. apply storeRisk_consistent.
Qed.

Lemma reachable_inv user p : reachable user p -> page_inv p.
Proof.
  induction 1 as [|p ev _ IH]; [apply mount_inv | apply step_inv, IH].
Qed.

(** In every reachable state the score on the page is an integer between 0
    and 100, the stored category is its threshold function, and the level
    the page renders is the label of that category. *)
Lemma reachable_category user p :
  reachable user p ->
  exists n : Z,
    healthRiskScore (profileData p) = Z2F n /\ 0 <= n <= 100
    /\ predictedRisk (profileData p) = riskCategory (Z2F n)
    /\ level (riskLevel p) = label (predictedRisk (profileData p)).
Proof.
  intros R. destruct (reachable_inv user p R) as [_ _ _ (n & Hn & Hr) Ik].
  exists n. rewrite Ik. unfold riskLevel. rewrite Hn.
  rewrite getRiskLevel_exact, riskCategory_exact by lia. auto.
Qed.

Lemma run_reachable user p evs : reachable user p -> reachable user (run p evs).
Proof.
  revert p. induction evs as [|ev evs IH]; intros p R; cbn; [exact R|].
  apply IH. constructor. exact R.
Qed.

Lemma bmiEffect_settled d : bmi_settled d -> bmiEffect d = d.
Proof.
  unfold bmi_settled, bmiEffect, with_bmi. intros <-. destruct d; reflexivity.
Qed.

(** What a resolved submission stores, and shows: the score and category
    of the profile the handler closed over. *)
Lemma resolve_stores p closed :
  submitted p = Some closed ->
  profileData (step p SubmitResolved) = storeRisk closed (profileData p).
Proof.
  intros S. cbn [step]. rewrite S. cbn [profileData].
  apply commit_same_deps; reflexivity.
Qed.

(** Submitting an idle page and letting the submission resolve displays
    the metrics of the profile on the page. *)
Lemma submit_displays p :
  page_inv p -> loading p = false ->
  displayed (run p [Submit; SubmitResolved]) = evaluate (profileData p).
Proof.
  intros I L. unfold run; cbn [fold_left]. cbn [step]. rewrite L.
  cbn [submitted profileData displayed].
  rewrite commit_same_deps by reflexivity.
  unfold evaluate. rewrite (bmiEffect_settled _ (inv_bmi _ I)). reflexivity.
Qed.

(** The score reads the age, the BMI and the risk factors only. *)
Lemma riskScore_ext d d' :
  age d = age d' -> bmi d = bmi d' ->
  smokingStatus d = smokingStatus d' ->
  alcoholConsumption d = alcoholConsumption d' ->
  activityLevel d = activityLevel d' ->
  hasHypertension d = hasHypertension d' ->
  hasDiabetes d = hasDiabetes d' ->
  hasHighBP d = hasHighBP d' ->
  familyHistory d = familyHistory d' ->
  riskScore d = riskScore d'.
Proof.
  destruct d, d'. cbn. intros; subst. reflexivity.
Qed.

(** [evaluate] reads the input fields only. *)
Lemma evaluate_same_profile p q : same_profile p q -> evaluate p = evaluate q.
Proof.
  intros (Hh & Hw & Ha & Hs & Hal & Hac & H1 & H2 & H3 & Hf).
  assert (B : bmi (bmiEffect p) = bmi (bmiEffect q))
    by (cbn; rewrite Hh, Hw; reflexivity).
  assert (R : riskScore (bmiEffect p) = riskScore (bmiEffect q))
    by (apply riskScore_ext; try assumption; reflexivity).
  unfold evaluate, metrics, storeRisk. cbn [bmi healthRiskScore predictedRisk].
  rewrite B, R. reflexivity.
Qed.

End PageMachine.

(** ** The BMI effect: [toFixed(1)] rounds the binary64 quotient *)

Section Bmi.
Import Js ProfilePage RiskScoreCalculator.
Local Open Scope Z_scope.

(** A fraction [a / P] rounds to [n] tenths when [20 a] is within [P] of
    [2 n P]. *)
Lemma rounds_to_frac (a : Z) (P : positive) (n : Z) :
  - Zpos P <= 20 * a - 2 * n * Zpos P <= Zpos P -> rounds_to (a # P) n.
Proof.
  intros H. unfold rounds_to. apply Qabs_Qle_condition.
  unfold Qle, Qminus, Qplus, Qmult, Qopp, inject_Z; cbn [Qnum Qden].
  rewrite !Pos2Z.inj_mul. split; nia.
Qed.

Lemma tenths_bounds m k :
  - Zpos (2 ^ k) <= 20 * Zpos m - 2 * tenths m (Zneg k) * Zpos (2 ^ k) <= Zpos (2 ^ k).
Proof.
  unfold tenths. rewrite Pos2Z.inj_pow.
  set (D := 2 ^ Zpos k).
  assert (HD : 0 < D) by (apply Z.pow_pos_nonneg; lia).
  replace (2 ^ (Zpos k + 1)) with (2 * D) by (unfold D; rewrite Z.pow_add_r; lia).
  pose proof (Z.mul_div_le (20 * Zpos m + D) (2 * D) ltac:(lia)).
  pose proof (Z.mul_succ_div_gt (20 * Zpos m + D) (2 * D) ltac:(lia)).
  lia.
Qed.

Lemma Qfloor_tenths (a : Z) (P : positive) :
  Qfloor (10 * (a # P) + (1 # 2)) = (20 * a + Zpos P) / (2 * Zpos P).
Proof.
  unfold Qfloor, Qplus, Qmult; cbn [Qnum Qden].
  rewrite !Pos2Z.inj_mul. f_equal; lia.
Qed.

(** The digits [toFixed(1)] prints spell the integer nearest to ten times
    the magnitude of the binary64 number it is applied to, the upper one on
    a tie; with the sign they are a rounding of its exact value. *)
Lemma toFixed1_rounds x q :
  exact x = Some q -> (1e21 <=? abs x)%float = false ->
  exists neg n,
    toFixed1 x = FixedDec neg n
    /\ n = Qfloor (10 * Qabs q + (1 # 2))
    /\ rounds_to q (signed neg n).
Proof.
  unfold exact, toFixed1. intros E Big.
  destruct (Prim2SF x) as [s|s| |s m e]; try discriminate.
  - inversion E; subst. exists false, 0. repeat split.
    apply (rounds_to_frac 0 1 0). lia.
  - rewrite Big. exists s, (tenths m e). cbn [SF2Q] in E. inversion E; subst q.
    split; [reflexivity|]. destruct e as [|e|k].
    + cbn [tenths]. split.
      * destruct s; unfold inject_Z, Qopp, Qabs; cbn [Qnum Qden];
          rewrite ?Z.abs_opp, Z.abs_eq by lia;
          rewrite Qfloor_tenths; apply Z.div_unique with (r := 1); lia.
      * destruct s; unfold signed, inject_Z, Qopp; cbn [Qnum Qden];
          apply rounds_to_frac; lia.
    + unfold tenths. pose proof (Z.pow_pos_nonneg 2 (Zpos e) ltac:(lia) ltac:(lia)).
      split.
      * destruct s; unfold inject_Z, Qopp, Qabs; cbn [Qnum Qden];
          rewrite ?Z.abs_opp, Z.abs_eq by lia;
          rewrite Qfloor_tenths; apply Z.div_unique with (r := 1); lia.
      * destruct s; unfold signed, inject_Z, Qopp; cbn [Qnum Qden];
          apply rounds_to_frac; lia.
    + pose proof (tenths_bounds m k) as B. split.
      * destruct s; unfold Qopp, Qabs; cbn [Qnum Qden Z.abs Z.opp];
          rewrite Qfloor_tenths; unfold tenths; rewrite Pos2Z.inj_pow;
          rewrite Z.pow_add_r by lia; f_equal; lia.
      * destruct s; unfold signed, Qopp; cbn [Qnum Qden];
          apply rounds_to_frac; lia.
Qed.

End Bmi.

(** ** Login *)

Section Login.
Import AuthContext.

(** A successful login stores the user, the token and the header. *)
Lemma login_success email password response session s :
  success response = true -> data response = Some session ->
  let '(s', r) := login email password (Resolved response) s in
  r = Returned true
  /\ user s' = Some (session_user session)
  /\ localStorage s' !! "vitalae_token"%string = Some (session_token session)
  /\ headers s' !! "Authorization"%string
     = Some ("Bearer " ++ session_token session)%string
  /\ loading s' = false.
Proof.
  intros Hs Hd. unfold login, try_finally, try_catch, bind, axios_post, ret.
  cbn. rewrite Hs, Hd. cbn. repeat split.
  - apply lookup_insert_eq.
  - apply lookup_insert_eq.
Qed.

(** A response that claims success without a session makes the
    destructuring throw: [login] returns false and nothing is stored. *)
Lemma login_missing_session email password response s :
  success response = true -> data response = None ->
  let '(s', r) := login email password (Resolved response) s in
  r = Returned false /\ user s' = user s
  /\ localStorage s' = localStorage s /\ headers s' = headers s.
Proof.
  intros Hs Hd. unfold login, try_finally, try_catch, bind, axios_post, ret.
  cbn. rewrite Hs, Hd. cbn. repeat split.
Qed.

End Login.

(** ** Worked examples *)

Section Examples.
Import Js ProfilePage RiskScoreCalculator.

(** The healthy profile of the specification: age 25, BMI 22, never smoked,
    no alcohol, active, no conditions, no family history. *)
Example healthy_profile :
  let p := mkProfileData 170 63.6 25 22 never none active false false false
             (mkFamilyHistory false false false) 25 low in
  healthRiskScore (storeRisk p p) = 0%float /\ predictedRisk (storeRisk p p) = low.
Proof. split; vm_compute; reflexivity. Qed.

(** Mounting the page keeps the initial BMI of 24.2; a height of 0, which
    the height input hands over when it is emptied, makes the BMI infinite
    and scores it as obese. *)
Example bmi_on_the_page :
  bmi (profileData (mount None)) = 24.2%float
  /\ bmi (profileData (step (mount None) (InputChanged (set_height 0)))) = infinity
  /\ category (bmiCategory (step (mount None) (InputChanged (set_height 0))))
     = "Obese"%string.
Proof. repeat split; vm_compute; reflexivity. Qed.

(** A submission closes over the profile of the moment: a field changed
    while it waits is not in the stored score. *)
Example submission_closes_over_profile :
  let p := run (mount None)
             [Submit; InputChanged (set_smokingStatus current); SubmitResolved] in
  smokingStatus (profileData p) = current
  /\ healthRiskScore (profileData p) = 5%float
  /\ score (profileData p) = 25%float.
Proof. repeat split; vm_compute; reflexivity. Qed.

End Examples.

(** ** The properties of the specification *)

Section Properties.
Import Js ProfilePage Points RiskScoreCalculator Order.
Local Open Scope Z_scope.

(** C1, as the specification states it, fails: the specification's table
    gives family heart disease 8 points, [handleSubmit] adds 10.  For the
    initial profile with the family heart disease box ticked the page
    stores 15, the specification's table sums to 13. *)
Lemma C1_spec_table_counterexample :
  let p := handleFamilyHistoryChange f_heartDisease true (initialProfileData None) in
  score p = 15%float
  /\ Z2F (table_score spec_table p) = 13%float
  /\ score p <> Z2F (table_score spec_table p).
Proof.
  cbv zeta. split; [vm_compute; reflexivity|]. split; [vm_compute; reflexivity|].
  float_neq.
Qed.

(** C1, amended: for every profile, the score stored on submission is the
    number of the table's sum -- first match wins within a factor group,
    the groups summed, the sum clamped to 100 -- where the table is the
    specification's with 10 points, not 8, for family heart disease. *)
Theorem C1_submit_score_table (submitted prev : ProfileData) :
  healthRiskScore (storeRisk submitted prev)
  = Z2F (table_score submit_table submitted).
Proof.
  unfold table_score. rewrite table_sum_submit. apply storeRisk_score.
Qed.

(** C2, as stated, fails for the risk score: after a field change the
    page still shows the score it had.  On a freshly mounted page with no
    user, changing the smoking status to former leaves the displayed score
    at the initial 25, while the score of the fields now on the page is
    15. *)
Lemma C2_stale_score_counterexample :
  let p := step (mount None) (InputChanged (set_smokingStatus former)) in
  reachable None p
  /\ dm_bmi (displayed p) = dm_bmi (evaluate (profileData p))
  /\ dm_riskScore (displayed p) = 25%float
  /\ dm_riskScore (evaluate (profileData p)) = 15%float
  /\ dm_riskScore (displayed p) <> dm_riskScore (evaluate (profileData p)).
Proof.
  cbv zeta. split; [apply reachable_step, reachable_mount|].
  split; [vm_compute; reflexivity|]. split; [vm_compute; reflexivity|].
  split; [vm_compute; reflexivity|]. float_neq.
Qed.

(** C2, amended: in every reachable state of the profile page the stored
    BMI is the BMI of the height and weight on the page (the effect
    recomputes it after every change of either); the risk score and the
    category are recomputed only when a submission resolves, from the
    profile the submission closed over: a change of an input or of a
    family-history box leaves them as they were, a resolved submission
    stores the clamped score and the category of the submitted profile,
    and submitting an idle page displays the metrics of the fields on the
    page. *)
Theorem C2_derived_values (user : option User) (p : Page) :
  reachable user p ->
  bmi (profileData p) = computeBmi (height (profileData p)) (weight (profileData p))
  /\ (forall c,
        healthRiskScore (profileData (step p (InputChanged c)))
        = healthRiskScore (profileData p)
        /\ predictedRisk (profileData (step p (InputChanged c)))
           = predictedRisk (profileData p))
  /\ (forall field value,
        healthRiskScore (profileData (step p (FamilyHistoryChanged field value)))
        = healthRiskScore (profileData p)
        /\ predictedRisk (profileData (step p (FamilyHistoryChanged field value)))
           = predictedRisk (profileData p))
  /\ (forall closed, submitted p = Some closed ->
        healthRiskScore (profileData (step p SubmitResolved))
        = Math_min (riskScore closed) 100
        /\ predictedRisk (profileData (step p SubmitResolved))
           = predictRisk (riskScore closed))
  /\ (loading p = false ->
      displayed (run p [Submit; SubmitResolved]) = evaluate (profileData p)).
Proof.
  intros R. pose proof (reachable_inv user p R) as I.
  split; [exact (inv_bmi p I)|].
  split; [intros c; cbn [step profileData];
          rewrite commit_score, commit_category; split; reflexivity|].
  split; [intros field value; cbn [step profileData];
          rewrite commit_score, commit_category; split; reflexivity|].
  split.
  - intros closed S. rewrite (resolve_stores p closed S). split; reflexivity.
  - intros L. apply submit_displays; assumption.
Qed.

(** The freshly mounted page without a user. *)
Lemma C2_derived_values_witness :
  let p := mount None in
  bmi (profileData p) = computeBmi (height (profileData p)) (weight (profileData p))
  /\ (forall c,
        healthRiskScore (profileData (step p (InputChanged c)))
        = healthRiskScore (profileData p)
        /\ predictedRisk (profileData (step p (InputChanged c)))
           = predictedRisk (profileData p))
  /\ (forall field value,
        healthRiskScore (profileData (step p (FamilyHistoryChanged field value)))
        = healthRiskScore (profileData p)
        /\ predictedRisk (profileData (step p (FamilyHistoryChanged field value)))
           = predictedRisk (profileData p))
  /\ (forall closed, submitted p = Some closed ->
        healthRiskScore (profileData (step p SubmitResolved))
        = Math_min (riskScore closed) 100
        /\ predictedRisk (profileData (step p SubmitResolved))
           = predictRisk (riskScore closed))
  /\ (loading p = false ->
      displayed (run p [Submit; SubmitResolved]) = evaluate (profileData p)).
Proof.
  cbv zeta. apply (C2_derived_values None (mount None)). apply reachable_mount.
Defined.

(** C3: for every profile whose fields are within their declared domains,
    the risk score the evaluation produces is an integer in the closed
    interval from 0 to 100: it is the number of an integer [n] with
    [0 <= n <= 100], it holds an integer, and it compares as at least 0 and
    at most 100. *)
Theorem C3_score_range (p : ProfileData) :
  valid p = true ->
  let s := dm_riskScore (evaluate p) in
  (exists n : Z, s = Z2F n /\ 0 <= n <= 100)
  /\ is_integer s = true
  /\ (0 <=? s)%float = true /\ (s <=? 100)%float = true.
Proof.
  intros _. cbv zeta.
  pose proof (riskPoints_bounds (bmiEffect p)) as B.
  assert (E : dm_riskScore (evaluate p) = Z2F (Z.min (riskPoints (bmiEffect p)) 100))
    by (unfold evaluate, metrics; cbn [dm_riskScore]; apply storeRisk_score).
  rewrite E. split.
  - exists (Z.min (riskPoints (bmiEffect p)) 100). split; [reflexivity | lia].
  - apply Z2F_in_range. lia.
Qed.

(** The initial profile is within the domains and scores within range. *)
Lemma C3_score_range_witness :
  valid (initialProfileData None) = true
  /\ let s := dm_riskScore (evaluate (initialProfileData None)) in
     (exists n : Z, s = Z2F n /\ 0 <= n <= 100)
     /\ is_integer s = true
     /\ (0 <=? s)%float = true /\ (s <=? 100)%float = true.
Proof.
  split; [vm_compute; reflexivity|].
  apply (C3_score_range (initialProfileData None)). vm_compute; reflexivity.
Defined.

(** C4: the category stored with a score is the threshold function of
    that score alone -- below 30 low, from 30 and below 60 medium, from 60
    high -- and the level [getRiskLevel] shows for the stored score is the
    label of that category. *)
Theorem C4_category_of_score (submitted prev : ProfileData) :
  let stored := storeRisk submitted prev in
  predictedRisk stored = riskCategory (healthRiskScore stored)
  /\ level (ProfilePage.getRiskLevel (healthRiskScore stored))
     = label (predictedRisk stored).
Proof.
  cbv zeta. split; [apply storeRisk_consistent|].
  pose proof (riskPoints_bounds submitted).
  rewrite storeRisk_score, storeRisk_category, getRiskLevel_exact by lia.
  f_equal. apply min_category. lia.
Qed.

(** C5, as stated, fails for the BMI: an underweight BMI scores 10 points
    and a normal one none, so raising the BMI from 18 to 22 with every
    other field fixed lowers the score from 15 to 5. *)
Lemma C5_underweight_counterexample :
  let p := with_bmi 18 (initialProfileData None) in
  let q := with_bmi 22 p in
  raised (fun _ => True) p q
  /\ score p = 15%float /\ score q = 5%float
  /\ (score p <=? score q)%float = false.
Proof.
  cbv zeta. split.
  - apply raised_bmi; [exact I | vm_compute; reflexivity].
  - repeat split; vm_compute; reflexivity.
Qed.

(** C5, amended: the score never decreases when one risk factor is raised
    and every other field is held fixed -- the age, the smoking status
    (never, former, current), the alcohol consumption (none, moderate,
    heavy), the activity level (active, moderate, sedentary), each
    condition flag and each family-history flag -- and, for the BMI, when
    it is raised from a value of at least 18.5. *)
Theorem C5_score_monotone (p q : ProfileData) :
  raised (fun b => (18.5 <=? b)%float = true) p q ->
  (score p <=? score q)%float = true.
Proof.
  intros R. pose proof (raised_points p q R).
  pose proof (riskPoints_bounds p). pose proof (riskPoints_bounds q).
  rewrite !score_exact, leb_exact by lia. apply Z.leb_le. lia.
Qed.

(** Raising the smoking status of the initial profile to former. *)
Lemma C5_score_monotone_witness :
  let p := initialProfileData None in
  (score p <=? score (handleInputChange (set_smokingStatus former) p))%float = true.
Proof.
  cbv zeta. apply (C5_score_monotone (initialProfileData None)).
  apply raised_smoking. vm_compute. discriminate.
Defined.

(** C6, as stated, fails: the quotient is computed in binary64 and
    [toFixed(1)] rounds the computed value, not the exact one.  For height
    160 and weight 48 the exact quotient is 18.75, which rounds to 18.8
    (half up, and half to even as well), while the computed quotient lies
    just below 18.75 and the BMI is 18.7.  For height 120 and weight 66.6
    (the binary64 number nearest to it) the computed quotient is exactly
    46.25 and the BMI is 46.3, while the exact quotient of the two numbers
    lies below 46.25 and has 46.2 as its only rounding to one decimal. *)
Lemma C6_rounding_counterexample :
  (exists q, bmi_exact 160 48 = Some q /\ (q == 1875 # 100)%Q
             /\ Qfloor (10 * q + (1 # 2)) = 188
             /\ computeBmi 160 48 = 18.7%float
             /\ computeBmi 160 48 = Number (FixedDec false 187)
             /\ computeBmi 160 48 <> Number (FixedDec false 188))
  /\ (computeBmi 120 66.6 = 46.3%float
      /\ ~ exists q n, bmi_exact 120 66.6 = Some q /\ rounds_to q n
                       /\ computeBmi 120 66.6 = Number (FixedDec false n)).
Proof.
  split; [|split].
  - eexists. split; [vm_compute; reflexivity|].
    repeat split; try (vm_compute; reflexivity). float_neq.
  - vm_compute; reflexivity.
  - intros (q & n & Hq & Hr & Hc).
    vm_compute in Hq. inversion Hq; subst q; clear Hq.
    assert (n = 462).
    { unfold rounds_to in Hr. apply Qabs_Qle_condition in Hr.
      unfold Qle, Qminus, Qplus, Qmult, Qopp, inject_Z in Hr.
      cbn [Qnum Qden] in Hr. rewrite ?Pos2Z.inj_mul in Hr. lia. }
    subst n. revert Hc. float_neq.
Qed.

(** C6, amended: the BMI is [toFixed(1)] of the binary64 value of
    [weight / ((height/100) * (height/100))]: whenever that value is
    finite and below 1e21 in magnitude, the BMI is the number a decimal
    with one fractional digit spells, and that decimal is a rounding to
    one decimal place of the computed binary64 quotient (ties away from
    zero), not of the exact quotient; in particular the BMI of height 170
    and weight 70 is 24.2. *)
Theorem C6_bmi_rounds_binary64 (heightCm weightKg : number) (q : Q) :
  let x := (weightKg / ((heightCm / 100) * (heightCm / 100)))%float in
  exact x = Some q -> (1e21 <=? abs x)%float = false ->
  (exists neg n,
      computeBmi heightCm weightKg = Number (FixedDec neg n)
      /\ n = Qfloor (10 * Qabs q + (1 # 2))
      /\ rounds_to q (signed neg n))
  /\ computeBmi 170 70 = 24.2%float.
Proof.
  cbv zeta. intros E Big. split; [|vm_compute; reflexivity].
  destruct (toFixed1_rounds _ q E Big) as (neg & n & Ht & Hn & Hr).
  exists neg, n. unfold computeBmi. cbv zeta. rewrite Ht. auto.
Qed.

(** Height 170 and weight 70: the computed quotient 24.22... prints as 24.2. *)
Lemma C6_bmi_rounds_binary64_witness :
  (exists neg n,
      computeBmi 170 70 = Number (FixedDec neg n)
      /\ n = Qfloor (10 * Qabs (6817732999912084 # 281474976710656) + (1 # 2))
      /\ rounds_to (6817732999912084 # 281474976710656) (signed neg n))
  /\ computeBmi 170 70 = 24.2%float.
Proof.
  apply (C6_bmi_rounds_binary64 170%float 70%float
           (6817732999912084 # 281474976710656));
    vm_compute; reflexivity.
Defined.

(** C7: a profile of age 70 with a BMI of at least 30, currently smoking,
    drinking heavily, sedentary, with all three condition flags and all
    three family-history flags set sums to 183, above 100; the stored
    score is exactly 100 and the category is high. *)
Theorem C7_all_factors_clamp (p prev : ProfileData) :
  age p = 70%float -> geb (bmi p) 30 = true ->
  smokingStatus p = current -> alcoholConsumption p = heavy ->
  activityLevel p = sedentary ->
  hasHypertension p = true -> hasDiabetes p = true -> hasHighBP p = true ->
  familyHistory p = mkFamilyHistory true true true ->
  riskScore p = 183%float
  /\ (100 <? riskScore p)%float = true
  /\ healthRiskScore (storeRisk p prev) = 100%float
  /\ predictedRisk (storeRisk p prev) = high.
Proof.
  intros Ha Hb Hs Hal Hac H1 H2 H3 Hf.
  assert (P : riskPoints p = 183).
  { unfold riskPoints, bmiPoints. rewrite Ha, Hb, Hs, Hal, Hac, H1, H2, H3, Hf.
    reflexivity. }
  rewrite storeRisk_score, storeRisk_category, riskScore_exact, P.
  repeat split.
Qed.

(** A profile with every factor at its highest and a BMI of 32.9. *)
Lemma C7_all_factors_clamp_witness :
  let p := mkProfileData 170 95 70 32.9 current heavy sedentary true true true
             (mkFamilyHistory true true true) 25 low in
  riskScore p = 183%float
  /\ (100 <? riskScore p)%float = true
  /\ healthRiskScore (storeRisk p p) = 100%float
  /\ predictedRisk (storeRisk p p) = high.
Proof.
  cbv zeta.
  apply (C7_all_factors_clamp
           (mkProfileData 170 95 70 32.9 current heavy sedentary true true true
              (mkFamilyHistory true true true) 25 low)); reflexivity.
Defined.

(** C8: the evaluation is deterministic and reads the profile only.  Two
    reachable idle pages that hold the same HealthProfile -- whatever
    their histories and the scores they showed before -- display identical
    BMI, score and category once submitted, and two evaluations of records
    holding the same HealthProfile are equal. *)
Theorem C8_evaluation_deterministic (user1 user2 : option User) (p1 p2 : Page) :
  reachable user1 p1 -> reachable user2 p2 ->
  loading p1 = false -> loading p2 = false ->
  same_profile (profileData p1) (profileData p2) ->
  displayed (run p1 [Submit; SubmitResolved])
  = displayed (run p2 [Submit; SubmitResolved])
  /\ evaluate (profileData p1) = evaluate (profileData p2).
Proof.
  intros R1 R2 L1 L2 S.
  rewrite (submit_displays p1 (reachable_inv _ _ R1) L1).
  rewrite (submit_displays p2 (reachable_inv _ _ R2) L2).
  split; apply evaluate_same_profile; exact S.
Qed.

(** A fresh page and a page that went through another age and a submission
    hold the same profile, show different scores, and display the same
    metrics once submitted. *)
Lemma C8_evaluation_deterministic_witness :
  let p1 := mount None in
  let p2 := run (mount None) [InputChanged (set_age 50); Submit; SubmitResolved;
                              InputChanged (set_age 30)] in
  healthRiskScore (profileData p1) = 25%float
  /\ healthRiskScore (profileData p2) = 20%float
  /\ displayed (run p1 [Submit; SubmitResolved])
     = displayed (run p2 [Submit; SubmitResolved])
  /\ evaluate (profileData p1) = evaluate (profileData p2).
Proof.
  cbv zeta. split; [vm_compute; reflexivity|]. split; [vm_compute; reflexivity|].
  apply (C8_evaluation_deterministic None None).
  - apply reachable_mount.
  - apply (run_reachable None (mount None)), reachable_mount.
  - reflexivity.
  - reflexivity.
  - vm_compute. repeat split.
Defined.

(** C9: the two [getRiskLevel] functions, of the dashboard and of the
    profile page, return the same object for every score: level Low below
    30, Medium from 30 and below 60, High otherwise. *)
Theorem C9_getRiskLevel_agree (score : number) :
  DashboardPage.getRiskLevel score = ProfilePage.getRiskLevel score
  /\ level (DashboardPage.getRiskLevel score)
     = (if (score <? 30)%float then "Low"
        else if (30 <=? score)%float && (score <? 60)%float then "Medium"
        else "High")%string.
Proof.
  split; [reflexivity|]. unfold DashboardPage.getRiskLevel.
  destruct (score <? 30)%float eqn:E30; [reflexivity|].
  destruct (score <? 60)%float eqn:E60; [|rewrite andb_false_r; reflexivity].
  destruct (ltb_ord_l _ _ E60) as [ks Hs].
  rewrite (not_ltb_leb score 30%float ks _ Hs eq_refl E30). reflexivity.
Qed.

End Properties.

Section LoginProperties.
Import AuthContext.

(** C10: if the login fails -- the request throws, or the response has
    [success = false] -- then [login] returns false and the authentication
    state is as before: the same user (none if there was none), the same
    [localStorage] (no token written) and the same default headers (no
    Authorization header installed). *)
Theorem C10_login_failure_atomic (email password : string)
    (result : HttpResult) (s : Auth) :
  login_failed result ->
  let '(s', r) := login email password result s in
  r = Returned false
  /\ user s' = user s
  /\ localStorage s' = localStorage s
  /\ headers s' = headers s.
Proof.
  intros F. unfold login, try_finally, try_catch, bind, axios_post, ret, throw.
  destruct result as [response|error]; cbn in F |- *.
  - rewrite F. cbn. repeat split.
  - repeat split.
Qed.

(** A refused login on a fresh provider with empty storage. *)
Lemma C10_login_failure_atomic_witness :
  let s := init ∅ in
  let '(s', r) :=
    login "ada@example.org" "secret"
          (Resolved (mkResponseData false (Some "Invalid credentials") None)) s in
  r = Returned false
  /\ user s' = user s
  /\ localStorage s' = localStorage s
  /\ headers s' = headers s.
Proof.
  cbv zeta.
  apply (C10_login_failure_atomic "ada@example.org" "secret"
           (Resolved (mkResponseData false (Some "Invalid credentials") None))
           (init ∅)).
  reflexivity.
Defined.

End LoginProperties.


(** ** More on binary64: NaN, the infinities, [Math.min] and [Math.max] *)

Section FloatFacts.
Import Js Order.
Local Open Scope Z_scope.

Lemma lexcmp_refl k : lexcmp k k = Eq.
Proof.
  destruct k as [[a b] c]. unfold lexcmp. rewrite !Z.compare_refl. reflexivity.
Qed.

(** A number is NaN exactly when it has no place in the order. *)
Lemma is_nan_ord x : is_nan x = false <-> exists k, ord x = Some k.
Proof.
  unfold is_nan, ord. rewrite FloatAxioms.eqb_spec. unfold SFeqb.
  destruct (key (Prim2SF x)) as [k|] eqn:K.
  - rewrite (SFcompare_key _ _ k k K K), lexcmp_refl. split; eauto.
  - rewrite SFcompare_nan by (left; exact K).
    split; [discriminate | intros [k Hk]; discriminate].
Qed.

Lemma is_nan_true_ord x : is_nan x = true <-> ord x = None.
Proof.
  destruct (is_nan x) eqn:E.
  - split; [|reflexivity]. intros _. destruct (ord x) eqn:O; [|reflexivity].
    assert (is_nan x = false) by (apply is_nan_ord; eauto). congruence.
  - apply is_nan_ord in E. destruct E as [k Hk]. rewrite Hk.
    split; discriminate.
Qed.

Lemma leb_refl x : is_nan x = false -> (x <=? x)%float = true.
Proof.
  intros H. apply is_nan_ord in H. destruct H as [k Hk].
  apply leb_ord. exists k, k. repeat split; try assumption.
  apply lexcmp_not_Gt. rewrite lexcmp_refl. discriminate.
Qed.

Lemma ltb_leb x y : (x <? y)%float = true -> (x <=? y)%float = true.
Proof.
  intros H. apply ltb_ord in H. destruct H as (kx & ky & Hx & Hy & L).
  apply leb_ord. exists kx, ky. repeat split; try assumption.
  destruct kx as [[a1 b1] c1], ky as [[a2 b2] c2]. unfold lexlt, lexle in *. lia.
Qed.

Lemma ltb_asym x y : (x <? y)%float = true -> (y <? x)%float = false.
Proof.
  intros H. destruct (y <? x)%float eqn:E; [|reflexivity].
  apply ltb_leb in E. apply ltb_not_leb in H. congruence.
Qed.


Lemma leb_nan_l x y : (x <=? y)%float = true -> is_nan x = false.
Proof. intros H. apply is_nan_ord. exact (leb_ord_l _ _ H). Qed.

Lemma leb_nan_r x y : (x <=? y)%float = true -> is_nan y = false.
Proof. intros H. apply is_nan_ord. exact (leb_ord_r _ _ H). Qed.

Lemma ltb_nan_l x y : (x <? y)%float = true -> is_nan x = false.
Proof. intros H. apply is_nan_ord. exact (ltb_ord_l _ _ H). Qed.

Lemma ltb_nan_r x y : (x <? y)%float = true -> is_nan y = false.
Proof. intros H. apply is_nan_ord. exact (ltb_ord_r _ _ H). Qed.

(** Two numbers that are not NaN compare one way or the other. *)
Lemma nan_free_total x y :
  is_nan x = false -> is_nan y = false ->
  (x <? y)%float = false -> (y <=? x)%float = true.
Proof.
  intros Hx Hy. apply is_nan_ord in Hx, Hy.
  destruct Hx as [kx Hx], Hy as [ky Hy]. exact (not_ltb_leb x y kx ky Hx Hy).
Qed.

Lemma nan_free_total' x y :
  is_nan x = false -> is_nan y = false ->
  (x <=? y)%float = false -> (y <? x)%float = true.
Proof.
  intros Hx Hy. apply is_nan_ord in Hx, Hy.
  destruct Hx as [kx Hx], Hy as [ky Hy]. exact (not_leb_ltb x y kx ky Hx Hy).
Qed.

(** Only [+Infinity] is at least [+Infinity], only [-Infinity] at most
    [-Infinity]. *)
Lemma infinity_leb v : (infinity <=? v)%float = true -> v = infinity.
Proof.
  rewrite leb_spec. intros H. apply Prim2SF_inj.
  change (Prim2SF infinity) with (S754_infinity false) in *.
  destruct (Prim2SF v) as [s|[|]| |s m e]; try destruct s; cbn in H;
    try discriminate; reflexivity.
Qed.

Lemma leb_neg_infinity v : (v <=? neg_infinity)%float = true -> v = neg_infinity.
Proof.
  rewrite leb_spec. intros H. apply Prim2SF_inj.
  change (Prim2SF neg_infinity) with (S754_infinity true) in *.
  destruct (Prim2SF v) as [s|[|]| |s m e]; try destruct s; cbn in H;
    try discriminate; reflexivity.
Qed.

Lemma leb_infinity v : is_nan v = false -> (v <=? infinity)%float = true.
Proof.
  intros H. apply is_nan_ord in H. destruct H as [k Hk]. unfold ord in Hk.
  rewrite leb_spec. change (Prim2SF infinity) with (S754_infinity false).
  destruct (Prim2SF v) as [s|[|]| |s m e]; try destruct s; cbn in *;
    try discriminate; reflexivity.
Qed.

Lemma neg_infinity_leb v : is_nan v = false -> (neg_infinity <=? v)%float = true.
Proof.
  intros H. apply is_nan_ord in H. destruct H as [k Hk]. unfold ord in Hk.
  rewrite leb_spec. change (Prim2SF neg_infinity) with (S754_infinity true).
  destruct (Prim2SF v) as [s|[|]| |s m e]; try destruct s; cbn in *;
    try discriminate; reflexivity.
Qed.

(** What [Math.min] keeps while it visits NaN-free values. *)
Lemma Math_min_from_spec values :
  forall lowest,
    is_nan lowest = false ->
    (forall v, In v values -> is_nan v = false) ->
    let r := Math_min_from lowest values in
    (r = lowest \/ In r values)
    /\ (r <=? lowest)%float = true
    /\ (forall v, In v values -> (r <=? v)%float = true).
Proof.
  induction values as [|value rest IH]; intros lowest Hl Hv; cbn [Math_min_from].
  - cbv zeta. split; [left; reflexivity|]. split; [apply leb_refl, Hl|].
    intros v [].
  - assert (Hvalue : is_nan value = false) by (apply Hv; left; reflexivity).
    assert (Hrest : forall v, In v rest -> is_nan v = false)
      by (intros v Hin; apply Hv; right; exact Hin).
    rewrite Hvalue.
    destruct (Object_is value neg_zero && Object_is lowest zero) eqn:Z.
    + apply andb_prop in Z. destruct Z as [Z1 Z2].
      apply FloatAxioms.Leibniz.eqb_spec in Z1, Z2. subst value lowest.
      destruct (IH neg_zero eq_refl Hrest) as (M & L & A). cbv zeta.
      split; [destruct M as [M|M]; [right; left; symmetry; exact M | right; right; exact M]|].
      split; [apply (leb_trans _ neg_zero); [exact L | reflexivity]|].
      intros v [<-|Hin]; [exact L | apply A, Hin].
    + destruct (value <? lowest)%float eqn:C.
      * destruct (IH value Hvalue Hrest) as (M & L & A). cbv zeta.
        split; [destruct M as [M|M]; [right; left; symmetry; exact M | right; right; exact M]|].
        split; [apply ltb_leb, (leb_ltb_trans _ value); assumption|].
        intros v [<-|Hin]; [exact L | apply A, Hin].
      * destruct (IH lowest Hl Hrest) as (M & L & A). cbv zeta.
        split; [destruct M as [M|M]; [left; exact M | right; right; exact M]|].
        split; [exact L|].
        intros v [<-|Hin]; [|apply A, Hin].
        apply (leb_trans _ lowest); [exact L|].
        apply nan_free_total; assumption.
Qed.

Lemma Math_max_from_spec values :
  forall highest,
    is_nan highest = false ->
    (forall v, In v values -> is_nan v = false) ->
    let r := Math_max_from highest values in
    (r = highest \/ In r values)
    /\ (highest <=? r)%float = true
    /\ (forall v, In v values -> (v <=? r)%float = true).
Proof.
  induction values as [|value rest IH]; intros highest Hh Hv; cbn [Math_max_from].
  - cbv zeta. split; [left; reflexivity|]. split; [apply leb_refl, Hh|].
    intros v [].
  - assert (Hvalue : is_nan value = false) by (apply Hv; left; reflexivity).
    assert (Hrest : forall v, In v rest -> is_nan v = false)
      by (intros v Hin; apply Hv; right; exact Hin).
    rewrite Hvalue.
    destruct (Object_is value zero && Object_is highest neg_zero) eqn:Z.
    + apply andb_prop in Z. destruct Z as [Z1 Z2].
      apply FloatAxioms.Leibniz.eqb_spec in Z1, Z2. subst value highest.
      destruct (IH zero eq_refl Hrest) as (M & L & A). cbv zeta.
      split; [destruct M as [M|M]; [right; left; symmetry; exact M | right; right; exact M]|].
      split; [apply (leb_trans _ zero); [reflexivity | exact L]|].
      intros v [<-|Hin]; [exact L | apply A, Hin].
    + unfold gtb. destruct (highest <? value)%float eqn:C.
      * destruct (IH value Hvalue Hrest) as (M & L & A). cbv zeta.
        split; [destruct M as [M|M]; [right; left; symmetry; exact M | right; right; exact M]|].
        split; [apply ltb_leb, (ltb_leb_trans _ value); assumption|].
        intros v [<-|Hin]; [exact L | apply A, Hin].
      * destruct (IH highest Hh Hrest) as (M & L & A). cbv zeta.
        split; [destruct M as [M|M]; [left; exact M | right; right; exact M]|].
        split; [exact L|].
        intros v [<-|Hin]; [|apply A, Hin].
        apply (leb_trans _ highest); [|exact L].
        apply nan_free_total; assumption.
Qed.

(** A NaN among the values makes [Math.min] and [Math.max] NaN. *)
Lemma Math_min_from_nan values :
  forall lowest, (exists v, In v values /\ is_nan v = true) ->
                 Math_min_from lowest values = nan.
Proof.
  induction values as [|value rest IH]; intros lowest (v & Hin & Hn);
    [destruct Hin|]. cbn [Math_min_from].
  destruct (is_nan value) eqn:E; [reflexivity|].
  destruct Hin as [->|Hin]; [congruence|].
  repeat match goal with |- context [if ?c then _ else _] => destruct c end;
    apply IH; eauto.
Qed.

Lemma Math_max_from_nan values :
  forall highest, (exists v, In v values /\ is_nan v = true) ->
                  Math_max_from highest values = nan.
Proof.
  induction values as [|value rest IH]; intros highest (v & Hin & Hn);
    [destruct Hin|]. cbn [Math_max_from].
  destruct (is_nan value) eqn:E; [reflexivity|].
  destruct Hin as [->|Hin]; [congruence|].
  repeat match goal with |- context [if ?c then _ else _] => destruct c end;
    apply IH; eauto.
Qed.

(** The two-argument [Math.min] of [handleSubmit] is the spread form on two
    values. *)
Lemma Math_min_spread_pair x y : Math_min_spread [x; y] = Math_min x y.
Proof.
  unfold Math_min_spread, Math_min. cbn [Math_min_from].
  destruct (is_nan x) eqn:Ex; [reflexivity|]. cbn [orb].
  change (Object_is infinity zero) with false. rewrite andb_false_r.
  destruct (x <? infinity)%float; destruct (is_nan y); reflexivity.
Qed.

(** NaN absorbs addition and division. *)
Lemma add_nan_r x : (x + nan)%float = nan.
Proof.
  apply Prim2SF_inj. rewrite add_spec.
  change (Prim2SF nan) with S754_nan.
  destruct (Prim2SF x) as [s|s| |s m e]; reflexivity.
Qed.

Lemma add_nan_l x : (nan + x)%float = nan.
Proof.
  apply Prim2SF_inj. rewrite add_spec.
  change (Prim2SF nan) with S754_nan. reflexivity.
Qed.

Lemma div_nan_l x : (nan / x)%float = nan.
Proof.
  apply Prim2SF_inj. rewrite div_spec.
  change (Prim2SF nan) with S754_nan. reflexivity.
Qed.

Lemma is_nan_eq x : is_nan x = true -> x = nan.
Proof.
  intros H. apply is_nan_true_ord in H. unfold ord in H.
  apply Prim2SF_inj. change (Prim2SF nan) with S754_nan.
  destruct (Prim2SF x) as [s|[|]| |[|] m e]; try destruct s; cbn in H;
    try discriminate; reflexivity.
Qed.

End FloatFacts.

(** ** The analytics page *)

Section Analytics.
Import Js AnalyticsPage.

Lemma fold_sum_nan (healthData : list HealthData) :
  fold_left (fun sum data => (sum + get k_ecg data)%float) healthData nan = nan.
Proof.
  induction healthData as [|d rest IH]; cbn [fold_left]; [reflexivity|].
  cbn [get]. rewrite add_nan_r. exact IH.
Qed.

(** Once the running sum is NaN it stays NaN. *)
Lemma fold_sum_from_nan k (healthData : list HealthData) :
  fold_left (fun sum data => (sum + get k data)%float) healthData nan = nan.
Proof.
  induction healthData as [|d rest IH]; cbn [fold_left]; [reflexivity|].
  rewrite add_nan_l. exact IH.
Qed.

Lemma fold_sum_with_nan k (healthData : list HealthData) :
  forall sum,
    (exists d, In d healthData /\ is_nan (get k d) = true) ->
    fold_left (fun sum data => (sum + get k data)%float) healthData sum = nan.
Proof.
  induction healthData as [|d rest IH]; intros sum (d' & Hin & Hn); [destruct Hin|].
  cbn [fold_left]. destruct Hin as [->|Hin].
  - rewrite (is_nan_eq _ Hn), add_nan_r. apply fold_sum_from_nan.
  - apply IH. eauto.
Qed.

(** The points of the ECG chart, one by one. *)
Lemma In_ecgData (healthData : list HealthData) (point : EcgPoint) :
  In point (ecgData healthData) <->
  exists dayIndex day readingIndex reading,
    healthData !! dayIndex = Some day
    /\ ecgReadings day !! readingIndex = Some reading
    /\ point = mkEcgPoint (dayIndex * 10 + readingIndex) reading (date day).
Proof.
  unfold ecgData. rewrite in_concat. split.
  - intros (points & Hd & Hp).
    apply list_elem_of_In, elem_of_lookup_imap in Hd.
    destruct Hd as (dayIndex & day & -> & Hday).
    apply list_elem_of_In, elem_of_lookup_imap in Hp.
    destruct Hp as (readingIndex & reading & -> & Hreading).
    exists dayIndex, day, readingIndex, reading. auto.
  - intros (dayIndex & day & readingIndex & reading & Hday & Hreading & ->).
    eexists. split.
    + apply list_elem_of_In, elem_of_lookup_imap. exists dayIndex, day. eauto.
    + apply list_elem_of_In, elem_of_lookup_imap. exists readingIndex, reading. eauto.
Qed.

Lemma length_ecgData (healthData : list HealthData) :
  length (ecgData healthData)
  = list_sum (map (fun day => length (ecgReadings day)) healthData).
Proof.
  unfold ecgData.
  assert (G : forall (f : nat -> nat) (l : list HealthData),
             length (concat (imap (fun dayIndex day =>
                       imap (fun readingIndex reading =>
                               mkEcgPoint (f dayIndex * 10 + readingIndex) reading
                                          (date day))
                            (ecgReadings day)) l))
             = list_sum (map (fun day => length (ecgReadings day)) l)).
  { intros f l. revert f. induction l as [|day rest IH]; intros f; [reflexivity|].
    cbn [imap concat map]. unfold list_sum. cbn [foldr fold_right].
    rewrite length_app, length_imap. f_equal. exact (IH (f ∘ S)). }
  exact (G (fun i => i) healthData).
Qed.

Lemma reachable_metric (healthData : list HealthData) (p : Page) :
  reachable healthData p ->
  In (selectedMetric p) [k_heartRate; k_spo2; k_lactate]
  /\ AnalyticsPage.healthData p = healthData.
Proof.
  induction 1 as [|p ev _ [IH1 IH2]]; [cbn; auto|].
  destruct ev as [i|r| |]; cbn [step].
  - destruct (metrics !! i) as [m|] eqn:E; [|auto].
    cbn [selectedMetric AnalyticsPage.healthData]. split; [|exact IH2].
    destruct i as [|[|[|i]]]; cbn in E; inversion E; subst; cbn; auto.
  - cbn. auto.
  - destruct (loading p); cbn; auto.
  - cbn. auto.
Qed.

End Analytics.

(** ** Further properties: the analytics page *)

Section AnalyticsProperties.
Import Js AnalyticsPage.

(** X1: in every reachable state of the analytics page the selected metric
    is one the select offers (heart rate, SpO2 or lactate), so the metric
    description is found, the ECG chart, shown for ['ecg'] only, is never
    shown, and the data are the mounted ones. *)
Theorem analytics_never_selects_ecg (data : list HealthData) (p : Page) :
  reachable data p ->
  showsEcgChart p = false
  /\ (exists m, currentMetric (selectedMetric p) = Some m /\ key m = selectedMetric p)
  /\ healthData p = data.
Proof.
  intros R. destruct (reachable_metric data p R) as [Hin Hd].
  unfold showsEcgChart.
  destruct Hin as [<-|[<-|[<-|[]]]]; (split; [reflexivity|]);
    (split; [eexists; split; reflexivity | exact Hd]).
Qed.

(** After choosing the third option, then one the select does not have. *)
Lemma analytics_never_selects_ecg_witness :
  let p := step (step (mount []) (MetricSelected 2)) (MetricSelected 7) in
  selectedMetric p = k_lactate
  /\ showsEcgChart p = false
  /\ (exists m, currentMetric (selectedMetric p) = Some m /\ key m = selectedMetric p)
  /\ healthData p = [].
Proof.
  cbv zeta. split; [reflexivity|].
  apply (analytics_never_selects_ecg []).
  apply reachable_step, reachable_step, reachable_mount.
Defined.

(** X2: for data that are not empty and whose values of the selected
    metric are not NaN, the statistics exist, the minimum and the maximum
    are values of the data, and every value lies between them. *)
Theorem stats_min_max_bound (data : list HealthData) (k : MetricKey) :
  data <> [] ->
  (forall d, In d data -> is_nan (get k d) = false) ->
  exists s,
    stats data k = Some s
    /\ (exists d, In d data /\ min s = get k d)
    /\ (exists d, In d data /\ max s = get k d)
    /\ (forall d, In d data ->
          (min s <=? get k d)%float = true /\ (get k d <=? max s)%float = true).
Proof.
  intros Hne Hnan. destruct data as [|first rest]; [congruence|].
  eexists. split; [reflexivity|]. cbn [min max].
  assert (Hv : forall v, In v (map (get k) (first :: rest)) -> is_nan v = false).
  { intros v Hin. apply in_map_iff in Hin. destruct Hin as (d & <- & Hd). auto. }
  destruct (Math_min_from_spec _ infinity eq_refl Hv) as (Mm & _ & Am).
  destruct (Math_max_from_spec _ neg_infinity eq_refl Hv) as (Mx & _ & Ax).
  cbv zeta in *. fold (Math_min_spread (map (get k) (first :: rest))) in *.
  fold (Math_max_spread (map (get k) (first :: rest))) in *.
  assert (F : In (get k first) (map (get k) (first :: rest))) by (left; reflexivity).
  split; [|split].
  - destruct Mm as [E|Hin].
    + exists first. split; [left; reflexivity|].
      pose proof (Am _ F) as L. rewrite E in L |- *.
      symmetry. apply infinity_leb, L.
    + apply in_map_iff in Hin. destruct Hin as (d & E & Hd). eauto.
  - destruct Mx as [E|Hin].
    + exists first. split; [left; reflexivity|].
      pose proof (Ax _ F) as L. rewrite E in L |- *.
      symmetry. apply leb_neg_infinity, L.
    + apply in_map_iff in Hin. destruct Hin as (d & E & Hd). eauto.
  - intros d Hd. split; [apply Am | apply Ax]; apply in_map; exact Hd.
Qed.

(** Two days of heart rates. *)
Lemma stats_min_max_bound_witness :
  let data := [mkHealthData "2024-01-01" 72 98 1.2 [0.5%float; 0.8%float];
               mkHealthData "2024-01-02" 68 99 1.1 [0.4%float]] in
  exists s,
    stats data k_heartRate = Some s
    /\ (exists d, In d data /\ min s = get k_heartRate d)
    /\ (exists d, In d data /\ max s = get k_heartRate d)
    /\ (forall d, In d data ->
          (min s <=? get k_heartRate d)%float = true
          /\ (get k_heartRate d <=? max s)%float = true).
Proof.
  cbv zeta.
  apply (stats_min_max_bound
           [mkHealthData "2024-01-01" 72 98 1.2 [0.5%float; 0.8%float];
            mkHealthData "2024-01-02" 68 99 1.1 [0.4%float]] k_heartRate).
  - discriminate.
  - intros d [<-|[<-|[]]]; reflexivity.
Defined.

(** X3: one NaN among the values of the selected metric makes the average,
    the minimum and the maximum all NaN; this is so for every value when
    the metric is ['ecg'], a key the data do not have. *)
Theorem stats_nan_poisons (data : list HealthData) (k : MetricKey) (s : Stats) :
  stats data k = Some s ->
  (k = k_ecg \/ exists d, In d data /\ is_nan (get k d) = true) ->
  average s = nan /\ min s = nan /\ max s = nan.
Proof.
  intros Hs Hn. destruct data as [|first rest]; [discriminate|].
  assert (N : exists d, In d (first :: rest) /\ is_nan (get k d) = true).
  { destruct Hn as [->|N]; [|exact N]. exists first. split; [left|]; reflexivity. }
  cbn [stats] in Hs. inversion Hs; subst s; clear Hs. cbn [average min max].
  assert (V : exists v, In v (map (get k) (first :: rest)) /\ is_nan v = true).
  { destruct N as (d & Hd & Hn'). exists (get k d). split; [apply in_map, Hd | exact Hn']. }
  split; [|split].
  - change (fold_left (fun sum data => (sum + get k data)%float) rest
              (0 + get k first)%float)
      with (fold_left (fun sum data => (sum + get k data)%float) (first :: rest)
              0%float).
    rewrite (fold_sum_with_nan k (first :: rest) 0%float N). apply div_nan_l.
  - apply (Math_min_from_nan (map (get k) (first :: rest))), V.
  - apply (Math_max_from_nan (map (get k) (first :: rest))), V.
Qed.

(** Statistics of the ['ecg'] key on one day of data. *)
Lemma stats_nan_poisons_witness :
  exists s,
    stats [mkHealthData "2024-01-01" 72 98 1.2 [0.5%float; 0.8%float]] k_ecg = Some s
    /\ average s = nan /\ min s = nan /\ max s = nan.
Proof.
  eexists. split; [reflexivity|].
  apply (stats_nan_poisons [mkHealthData "2024-01-01" 72 98 1.2 [0.5%float; 0.8%float]] k_ecg);
    [reflexivity | left; reflexivity].
Defined.

(** X4: when no day has more than ten ECG readings, the day number in the
    tick label of a point of the ECG chart is the number of the day the
    reading belongs to, the point carries that day's date and that
    reading, and two points with the same time are the same point. *)
Theorem ecg_points_keep_their_day (data : list HealthData) :
  (forall day, In day data -> length (ecgReadings day) <= 10) ->
  (forall point, In point (ecgData data) ->
     exists day,
       data !! (tickDay (time point) - 1) = Some day
       /\ point_date point = date day
       /\ ecgReadings day !! (time point mod 10) = Some (value point))
  /\ (forall p q, In p (ecgData data) -> In q (ecgData data) ->
        time p = time q -> p = q).
Proof.
  intros Hlen.
  assert (K : forall point, In point (ecgData data) ->
                exists day,
                  data !! (time point / 10) = Some day
                  /\ point_date point = date day
                  /\ ecgReadings day !! (time point mod 10) = Some (value point)).
  { intros point Hin. apply In_ecgData in Hin.
    destruct Hin as (dayIndex & day & readingIndex & reading & Hday & Hr & ->).
    assert (readingIndex < 10).
    { apply lookup_lt_Some in Hr.
      assert (In day data) by (apply list_elem_of_In, list_elem_of_lookup; eauto).
      specialize (Hlen day ltac:(assumption)). lia. }
    cbn [time point_date value].
    assert (D : (dayIndex * 10 + readingIndex) / 10 = dayIndex)
      by (rewrite Nat.div_add_l, Nat.div_small by lia; lia).
    assert (M : (dayIndex * 10 + readingIndex) mod 10 = readingIndex)
      by (rewrite Nat.add_comm, Nat.Div0.mod_add, Nat.mod_small by lia; lia).
    exists day. rewrite D, M. auto. }
  split.
  - intros point Hin. destruct (K point Hin) as (day & Hd & Hdate & Hr).
    exists day. unfold tickDay. replace (time point / 10 + 1 - 1) with (time point / 10) by lia.
    auto.
  - intros p q Hp Hq E.
    destruct (K p Hp) as (dp & Hdp & Hdatep & Hrp).
    destruct (K q Hq) as (dq & Hdq & Hdateq & Hrq).
    rewrite E in Hdp, Hrp. rewrite Hdp in Hdq. inversion Hdq; subst dq.
    rewrite Hrp in Hrq. inversion Hrq.
    destruct p, q; cbn in *; congruence.
Qed.

(** Two days, of two and of one reading. *)
Lemma ecg_points_keep_their_day_witness :
  let data := [mkHealthData "2024-01-01" 72 98 1.2 [0.5%float; 0.8%float];
               mkHealthData "2024-01-02" 68 99 1.1 [0.4%float]] in
  map time (ecgData data) = [0; 1; 10]
  /\ (forall point, In point (ecgData data) ->
        exists day,
          data !! (tickDay (time point) - 1) = Some day
          /\ point_date point = date day
          /\ ecgReadings day !! (time point mod 10) = Some (value point))
  /\ (forall p q, In p (ecgData data) -> In q (ecgData data) ->
        time p = time q -> p = q).
Proof.
  cbv zeta. split; [reflexivity|].
  apply (ecg_points_keep_their_day
           [mkHealthData "2024-01-01" 72 98 1.2 [0.5%float; 0.8%float];
            mkHealthData "2024-01-02" 68 99 1.1 [0.4%float]]).
  intros day [<-|[<-|[]]]; cbn; lia.
Defined.

End AnalyticsProperties.


(** ** Further properties: the dashboard colours *)

Section DashboardProperties.
Import Js.
Local Open Scope string_scope.



(** X6: the dashboard colours a BMI like the profile page colours its BMI
    category exactly for a BMI below 25 or strictly between 25 and 30: at
    25 the dashboard is green where the profile page says Overweight in
    yellow, from 30 the dashboard stays yellow where the profile page says
    Obese in red, and a NaN is green on the dashboard and Obese on the
    profile page. *)
Theorem bmi_colours_agree (value : number) :
  DashboardPage.getStatusColor "bmi" value
  = ProfilePage.bmi_color (ProfilePage.getBMICategory value)
  <-> (value <? 25)%float || ((25 <? value)%float && (value <? 30)%float) = true.
Proof.
  unfold DashboardPage.getStatusColor, ProfilePage.getBMICategory, gtb.
  cbn [String.eqb Ascii.eqb Bool.eqb].
  destruct (value <? 18.5)%float eqn:A.
  - assert (B : (value <? 25)%float = true)
      by (apply (ltb_leb_trans _ 18.5%float); [exact A | reflexivity]).
    rewrite B. cbn. split; reflexivity.
  - destruct (value <? 25)%float eqn:B.
    + rewrite (ltb_asym _ _ B). cbn. split; reflexivity.
    + destruct (value <? 30)%float eqn:C; cbn [orb andb ProfilePage.bmi_color].
      * destruct (25 <? value)%float; split; try reflexivity; discriminate.
      * rewrite andb_false_r.
        destruct (25 <? value)%float; split; discriminate.
Qed.

End DashboardProperties.

(** ** The authentication provider *)

Section Provider.
Import AuthContext.
Local Open Scope string_scope.

(** What a call of [login] does, case by case. *)
Lemma login_cases email password result s :
  let '(s', r) := login email password result s in
  loading s' = false
  /\ ((exists response session,
          result = Resolved response /\ success response = true
          /\ data response = Some session
          /\ r = Returned true
          /\ user s' = Some (session_user session)
          /\ localStorage s'
             = <["vitalae_token" := session_token session]> (localStorage s)
          /\ headers s'
             = <["Authorization" := "Bearer " ++ session_token session]> (headers s)
          /\ toasts s' = (toasts s ++ [toast_success "Login successful!"])%list
          /\ console s' = console s)
      \/ ((forall response session,
             result = Resolved response -> success response = true ->
             data response = Some session -> False)
          /\ r = Returned false
          /\ user s' = user s
          /\ localStorage s' = localStorage s
          /\ headers s' = headers s
          /\ exists text, toasts s' = (toasts s ++ [toast_error text])%list)).
Proof.
  unfold login, try_finally, try_catch, bind, axios_post, ret, throw.
  destruct result as [[[|] msg [session|]]|error]; cbn.
  - split; [reflexivity|]. left. exists (mkResponseData true msg (Some session)), session.
    repeat split.
  - split; [reflexivity|]. right. split.
    { intros response session' E _ D. inversion E; subst. discriminate. }
    repeat split. eexists. reflexivity.
  - split; [reflexivity|]. right. split.
    { intros response session' E S _. inversion E; subst. discriminate. }
    repeat split. eexists. reflexivity.
  - split; [reflexivity|]. right. split.
    { intros response session' E S _. inversion E; subst. discriminate. }
    repeat split. eexists. reflexivity.
  - split; [reflexivity|]. right. split.
    { intros response session' E. discriminate. }
    repeat split. eexists. reflexivity.
Qed.


Lemma logout_effect s :
  let s' := fst (logout s) in
  user s' = None
  /\ localStorage s' = delete "vitalae_token" (localStorage s)
  /\ headers s' = delete "Authorization" (headers s)
  /\ loading s' = loading s.
Proof. repeat split. Qed.






End Provider.

(** ** Further properties: the authentication provider and the route guard *)

Section ProviderProperties.
Import AuthContext App.
Local Open Scope string_scope.

(** X7: [login] never throws; it always ends with [loading] off and one
    more toast, and it returns true exactly when the request resolved with
    [success] and with a session in [data]. *)
Theorem login_outcome (email password : string) (result : HttpResult) (s : Auth) :
  let '(s', r) := login email password result s in
  loading s' = false
  /\ length (toasts s') = S (length (toasts s))
  /\ (r = Returned true \/ r = Returned false)
  /\ (r = Returned true <->
      exists response session,
        result = Resolved response /\ success response = true
        /\ data response = Some session).
Proof.
  pose proof (login_cases email password result s) as C.
  destruct (login email password result s) as [s' r].
  destruct C as [L [(response & session & E & S & D & R & _ & _ & _ & T & _)
                   |(N & R & _ & _ & _ & text & T)]].
  - split; [exact L|]. rewrite T, length_app. split; [cbn; lia|].
    split; [left; exact R|]. split; eauto.
  - split; [exact L|]. rewrite T, length_app. split; [cbn; lia|].
    split; [right; exact R|]. split.
    + rewrite R. discriminate.
    + intros (response & session & E & S & D). destruct (N response session E S D).
Qed.

(** X8: a login that succeeds sets the user of the session, stores its
    token under [vitalae_token], installs [Bearer token] as the
    Authorization header, shows the success toast and leaves every other
    key of [localStorage], every other header and the console as they
    were. *)
Theorem login_stores_session (email password : string) (response : ResponseData)
    (session : Session) (s : Auth) :
  success response = true -> data response = Some session ->
  let '(s', r) := login email password (Resolved response) s in
  r = Returned true
  /\ user s' = Some (session_user session)
  /\ localStorage s' = <["vitalae_token" := session_token session]> (localStorage s)
  /\ headers s'
     = <["Authorization" := "Bearer " ++ session_token session]> (headers s)
  /\ toasts s' = (toasts s ++ [toast_success "Login successful!"])%list
  /\ console s' = console s.
Proof.
  intros S D. pose proof (login_cases email password (Resolved response) s) as C.
  destruct (login email password (Resolved response) s) as [s' r].
  destruct C as [_ [(response' & session' & E & _ & D' & R & U & St & H & T & Co)
                   |(N & _)]].
  - inversion E; subst response'. rewrite D in D'. inversion D'; subst session'.
    auto 10.
  - destruct (N response session eq_refl S D).
Qed.

(** A login that succeeds on a fresh provider. *)
Lemma login_stores_session_witness :
  let session :=
    mkSession (mkUser "7" "ada@example.org" "Ada" "Lovelace" 36%float "female" None)
              "t0k3n" in
  let response := mkResponseData true None (Some session) in
  let s := mounted ∅ in
  let '(s', r) := login "ada@example.org" "secret" (Resolved response) s in
  r = Returned true
  /\ user s' = Some (session_user session)
  /\ localStorage s' = <["vitalae_token" := session_token session]> (localStorage s)
  /\ headers s'
     = <["Authorization" := "Bearer " ++ session_token session]> (headers s)
  /\ toasts s' = (toasts s ++ [toast_success "Login successful!"])%list
  /\ console s' = console s.
Proof.
  exact (login_stores_session "ada@example.org" "secret"
           (mkResponseData true None
              (Some (mkSession
                       (mkUser "7" "ada@example.org" "Ada" "Lovelace" 36%float
                               "female" None) "t0k3n")))
           (mkSession
              (mkUser "7" "ada@example.org" "Ada" "Lovelace" 36%float "female" None)
              "t0k3n")
           (mounted ∅) eq_refl eq_refl).
Defined.

(** X9: [register] and [login] treat the answer of the server alike: for
    the same answer they return the same value and leave the same user,
    the same [localStorage], the same headers, the same [loading] and as
    many toasts. *)
Theorem register_like_login (userData : RegisterData) (email password : string)
    (result : HttpResult) (s : Auth) :
  let '(s1, r1) := register userData result s in
  let '(s2, r2) := login email password result s in
  r1 = r2 /\ user s1 = user s2 /\ localStorage s1 = localStorage s2
  /\ headers s1 = headers s2 /\ loading s1 = loading s2
  /\ length (toasts s1) = length (toasts s2).
Proof.
  unfold register, login, try_finally, try_catch, bind, axios_post, ret, throw.
  destruct result as [[[|] msg [session|]]|error]; cbn;
    rewrite ?length_app; repeat split.
Qed.

(** X10: logging out after a login attempt, whatever its outcome, leaves
    no user, no stored token and no Authorization header, and every other
    key of [localStorage] and every other header as before the attempt. *)
Theorem logout_after_login (email password : string) (result : HttpResult)
    (s : Auth) :
  let s' := fst (logout (fst (login email password result s))) in
  user s' = None
  /\ localStorage s' = delete "vitalae_token" (localStorage s)
  /\ headers s' = delete "Authorization" (headers s)
  /\ localStorage s' !! "vitalae_token" = None
  /\ headers s' !! "Authorization" = None.
Proof.
  pose proof (login_cases email password result s) as C.
  destruct (login email password result s) as [s1 r]. cbn [fst].
  destruct (logout_effect s1) as (U & S & H & _). cbv zeta in *.
  rewrite U, S, H.
  destruct C as [_ [(response & session & _ & _ & _ & _ & _ & S1 & H1 & _)
                   |(_ & _ & _ & S1 & H1 & _)]]; rewrite S1, H1.
  - rewrite !delete_insert_eq, !lookup_delete_eq. auto.
  - rewrite !lookup_delete_eq. auto.
Qed.

(** X11: without a stored token, or with an empty one, [checkAuth] sends
    nothing and changes nothing but [loading], which it turns off: the
    user, [localStorage], the headers, the toasts and the console stay,
    however a request would have ended. *)
Theorem checkAuth_without_token (result : HttpResult) (s : Auth) :
  match localStorage s !! "vitalae_token" with
  | Some text => text = ""
  | None => True
  end ->
  checkAuth result s
  = (mkAuth (user s) false (localStorage s) (headers s) (toasts s) (console s),
     Returned tt).
Proof.
  intros T. unfold checkAuth, bind, localStorage_getItem. cbn.
  destruct (localStorage s !! "vitalae_token") as [text|]; [subst text|]; reflexivity.
Qed.

(** An empty token in storage. *)
Lemma checkAuth_without_token_witness :
  let s := mounted {[ "vitalae_token" := "" ]} in
  headers s = ∅
  /\ checkAuth (Rejected (AxiosError None)) s
     = (mkAuth (user s) false (localStorage s) (headers s) (toasts s) (console s),
        Returned tt).
Proof.
  cbv zeta. split; [reflexivity|].
  apply (checkAuth_without_token (Rejected (AxiosError None))
           (mounted {[ "vitalae_token" := "" ]})).
  reflexivity.
Defined.

(** X12: with a stored token that is not empty, a [checkAuth] whose request
    throws, answers [success = false] or answers without a session removes
    the token from [localStorage] and the Authorization header, keeps every
    other key and header and the user, shows no toast and turns [loading]
    off. *)
Theorem checkAuth_failure_clears (result : HttpResult) (s : Auth) (text : string) :
  localStorage s !! "vitalae_token" = Some text -> text <> "" ->
  (forall response session,
     result = Resolved response -> success response = true ->
     data response = Some session -> False) ->
  let s' := fst (checkAuth result s) in
  snd (checkAuth result s) = Returned tt
  /\ user s' = user s
  /\ localStorage s' = delete "vitalae_token" (localStorage s)
  /\ headers s' = delete "Authorization" (headers s)
  /\ toasts s' = toasts s
  /\ loading s' = false.
Proof.
  intros T Ne F. apply String.eqb_neq in Ne.
  unfold checkAuth, bind, localStorage_getItem, try_catch, axios_get, ret, throw.
  cbn. rewrite T. unfold truthy. rewrite Ne. cbn.
  destruct result as [[[|] msg [session|]]|error]; cbn; try (repeat split; fail).
  destruct (F _ session eq_refl eq_refl eq_refl).
Qed.

(** An expired token: the profile request is rejected. *)
Lemma checkAuth_failure_clears_witness :
  let s := mounted {[ "vitalae_token" := "old"; "theme" := "dark" ]} in
  let s' := fst (checkAuth (Rejected (AxiosError (Some "jwt expired"))) s) in
  headers s = {[ "Authorization" := "Bearer old" ]}
  /\ snd (checkAuth (Rejected (AxiosError (Some "jwt expired"))) s) = Returned tt
  /\ user s' = user s
  /\ localStorage s' = delete "vitalae_token" (localStorage s)
  /\ headers s' = delete "Authorization" (headers s)
  /\ toasts s' = toasts s
  /\ loading s' = false.
Proof.
  cbv zeta. split; [reflexivity|].
  apply (checkAuth_failure_clears (Rejected (AxiosError (Some "jwt expired")))
           (mounted {[ "vitalae_token" := "old"; "theme" := "dark" ]}) "old").
  - reflexivity.
  - discriminate.
  - intros response session E. discriminate.
Defined.





(** X15: from a state without a user, a login opens the protected routes
    exactly when it returns true; when it returns false the guard
    redirects to [/login]. *)
Theorem login_opens_guard (email password : string) (result : HttpResult) (s : Auth) :
  user s = None ->
  let '(s', r) := login email password result s in
  (r = Returned true /\ ProtectedRoute s' = Children)
  \/ (r = Returned false /\ ProtectedRoute s' = Navigate "/login").
Proof.
  intros U. pose proof (login_cases email password result s) as C.
  destruct (login email password result s) as [s' r].
  destruct C as [L [(response & session & _ & _ & _ & R & U' & _)|(_ & R & U' & _)]];
    unfold ProtectedRoute; rewrite L, U'.
  - left. auto.
  - right. rewrite U. auto.
Qed.

(** A refused login on a fresh provider. *)
Lemma login_opens_guard_witness :
  let '(s', r) :=
    login "ada@example.org" "wrong"
          (Resolved (mkResponseData false (Some "Invalid credentials") None))
          (started ∅ (Rejected TypeError)) in
  (r = Returned true /\ ProtectedRoute s' = Children)
  \/ (r = Returned false /\ ProtectedRoute s' = Navigate "/login").
Proof.
  apply (login_opens_guard "ada@example.org" "wrong"
           (Resolved (mkResponseData false (Some "Invalid credentials") None))
           (started ∅ (Rejected TypeError))).
  reflexivity.
Defined.


End ProviderProperties.

(** ** Further properties: the profile page *)

Section ProfileProperties.
Import Js ProfilePage Points RiskScoreCalculator Fields.
Local Open Scope Z_scope.

(** On a settled page every commit is the effect: it stores the BMI of the
    new height and weight. *)
Lemma commit_settled_eq rendered next :
  bmi_settled rendered -> bmi next = bmi rendered ->
  commit rendered next = bmiEffect next.
Proof.
  unfold bmi_settled, commit, depsChanged. intros S B.
  destruct (Object_is (height rendered) (height next)) eqn:Eh;
    [destruct (Object_is (weight rendered) (weight next)) eqn:Ew|];
    cbn [andb negb]; try reflexivity.
  apply Object_is_eq in Eh, Ew.
  assert (X : computeBmi (height next) (weight next) = bmi next)
    by (rewrite B, S, Eh, Ew; reflexivity).
  unfold bmiEffect, with_bmi. rewrite X. destruct next; reflexivity.
Qed.

Lemma is_zero_cases h : is_zero h = true -> h = zero \/ h = neg_zero.
Proof.
  unfold is_zero. rewrite FloatAxioms.eqb_spec.
  change (Prim2SF zero) with (S754_zero false). intros H.
  destruct (Prim2SF h) as [s|s| |s m e] eqn:P; try destruct s; cbn in H;
    try discriminate.
  - right. apply Prim2SF_inj. rewrite P. reflexivity.
  - left. apply Prim2SF_inj. rewrite P. reflexivity.
Qed.

(** Division by zero: the sign of the weight decides. *)
Lemma div_zero w :
  (w / zero)%float
  = if (0 <? w)%float then infinity
    else if (w <? 0)%float then neg_infinity else nan.
Proof.
  apply Prim2SF_inj. rewrite div_spec, !ltb_spec.
  change (Prim2SF zero) with (S754_zero false).
  change (Prim2SF 0%float) with (S754_zero false).
  destruct (Prim2SF w) as [s|s| |s m e]; try destruct s; reflexivity.
Qed.

(** X17: the label the profile page shows for a BMI and the points the
    score gives the BMI agree on every BMI that is a number -- Underweight
    scores 10, Normal 0, Overweight 15, Obese 25 -- and differ on NaN,
    which is labelled Obese and scores nothing. *)
Theorem bmi_label_matches_points (b : number) :
  (is_nan b = false ->
   bmiPoints b = category_points (category (getBMICategory b)))
  /\ (is_nan b = true ->
      category (getBMICategory b) = "Obese"%string /\ bmiPoints b = 0).
Proof.
  split.
  - intros N. unfold bmiPoints, getBMICategory, geb.
    assert (T : forall c, is_nan c = false ->
                  (b <? c)%float = false -> (c <=? b)%float = true)
      by (intros c Hc; apply nan_free_total; assumption).
    destruct (b <? 18.5)%float eqn:A.
    { assert (B : (b <? 25)%float = true)
        by (apply (ltb_leb_trans _ 18.5%float); [exact A | reflexivity]).
      assert (C : (b <? 30)%float = true)
        by (apply (ltb_leb_trans _ 18.5%float); [exact A | reflexivity]).
      rewrite (ltb_not_leb _ _ B), (ltb_not_leb _ _ C). reflexivity. }
    destruct (b <? 25)%float eqn:B.
    { assert (C : (b <? 30)%float = true)
        by (apply (ltb_leb_trans _ 25%float); [exact B | reflexivity]).
      rewrite (ltb_not_leb _ _ B), (ltb_not_leb _ _ C). reflexivity. }
    destruct (b <? 30)%float eqn:C.
    { rewrite (ltb_not_leb _ _ C), (T 25%float eq_refl B). reflexivity. }
    rewrite (T 30%float eq_refl C). reflexivity.
  - intros N. rewrite (is_nan_eq _ N). split; reflexivity.
Qed.

(** A BMI of 27: Overweight, 15 points. *)
Lemma bmi_label_matches_points_witness :
  bmiPoints 27%float = category_points (category (getBMICategory 27%float)).
Proof.
  exact (proj1 (bmi_label_matches_points 27%float) eq_refl).
Defined.

(** X18: with a height of zero, which the height input hands over when it
    is emptied, the BMI is [Infinity] for a positive weight, [-Infinity]
    for a negative one and NaN otherwise; the page labels it Obese,
    Underweight and Obese, and the score gives it 25, 10 and 0 points. *)
Theorem bmi_of_zero_height (h w : number) :
  is_zero h = true ->
  computeBmi h w
  = (if (0 <? w)%float then infinity
     else if (w <? 0)%float then neg_infinity else nan)
  /\ category (getBMICategory (computeBmi h w))
     = (if (0 <? w)%float then "Obese"
        else if (w <? 0)%float then "Underweight" else "Obese")%string
  /\ bmiPoints (computeBmi h w)
     = (if (0 <? w)%float then 25 else if (w <? 0)%float then 10 else 0).
Proof.
  intros Z.
  assert (E : computeBmi h w
              = if (0 <? w)%float then infinity
                else if (w <? 0)%float then neg_infinity else nan).
  { unfold computeBmi. cbv zeta.
    assert (D : ((h / 100) * (h / 100))%float = zero)
      by (destruct (is_zero_cases h Z) as [-> | ->]; reflexivity).
    rewrite D, div_zero.
    destruct (0 <? w)%float; [reflexivity|]. destruct (w <? 0)%float; reflexivity. }
  rewrite E. split; [reflexivity|].
  destruct (0 <? w)%float; [split; reflexivity|].
  destruct (w <? 0)%float; split; reflexivity.
Qed.

(** The height input emptied on a weight of 70. *)
Lemma bmi_of_zero_height_witness :
  computeBmi 0 70 = infinity
  /\ category (getBMICategory (computeBmi 0 70)) = "Obese"%string
  /\ bmiPoints (computeBmi 0 70) = 25.
Proof.
  exact (bmi_of_zero_height 0%float 70%float eq_refl).
Defined.

(** X19: on a reachable page two input changes to different fields commute:
    whichever comes first, the page ends in the same state, BMI
    included. *)
Theorem input_changes_commute (user : option User) (p : Page) (c1 c2 : InputChange) :
  reachable user p ->
  field_name c1 <> field_name c2 ->
  step (step p (InputChanged c1)) (InputChanged c2)
  = step (step p (InputChanged c2)) (InputChanged c1).
Proof.
  intros R Ne. pose proof (inv_bmi _ (reachable_inv user p R)) as S.
  cbn [step profileData loading submitted toasts].
  set (d := profileData p) in *.
  rewrite (commit_settled_eq d (handleInputChange c1 d) S eq_refl).
  rewrite (commit_settled_eq d (handleInputChange c2 d) S eq_refl).
  rewrite (commit_settled_eq (bmiEffect (handleInputChange c1 d))
             (handleInputChange c2 (bmiEffect (handleInputChange c1 d)))
             eq_refl eq_refl).
  rewrite (commit_settled_eq (bmiEffect (handleInputChange c2 d))
             (handleInputChange c1 (bmiEffect (handleInputChange c2 d)))
             eq_refl eq_refl).
  f_equal. unfold bmiEffect, with_bmi.
  destruct c1, c2; try (exfalso; apply Ne; reflexivity); reflexivity.
Qed.

(** The height, then the smoking status; or the other way round. *)
Lemma input_changes_commute_witness :
  step (step (mount None) (InputChanged (set_height 180)))
       (InputChanged (set_smokingStatus former))
  = step (step (mount None) (InputChanged (set_smokingStatus former)))
         (InputChanged (set_height 180)).
Proof.
  apply (input_changes_commute None (mount None)
           (set_height 180) (set_smokingStatus former)).
  - apply reachable_mount.
  - discriminate.
Defined.

(** X20: on a reachable page an input change made twice is the change made
    once. *)
Theorem input_change_idempotent (user : option User) (p : Page) (c : InputChange) :
  reachable user p ->
  step (step p (InputChanged c)) (InputChanged c) = step p (InputChanged c).
Proof.
  intros R. pose proof (inv_bmi _ (reachable_inv user p R)) as S.
  cbn [step profileData loading submitted toasts].
  set (d := profileData p) in *.
  rewrite (commit_settled_eq d (handleInputChange c d) S eq_refl).
  rewrite (commit_settled_eq (bmiEffect (handleInputChange c d))
             (handleInputChange c (bmiEffect (handleInputChange c d)))
             eq_refl eq_refl).
  f_equal. unfold bmiEffect, with_bmi. destruct c; reflexivity.
Qed.

(** The weight set to 82 twice. *)
Lemma input_change_idempotent_witness :
  step (step (mount None) (InputChanged (set_weight 82))) (InputChanged (set_weight 82))
  = step (mount None) (InputChanged (set_weight 82)).
Proof.
  apply (input_change_idempotent None (mount None) (set_weight 82)).
  apply reachable_mount.
Defined.

(** X23: a change of a family-history box never runs the BMI effect and
    touches the boxes only; on a reachable page it commutes with every
    input change, and two changes of different boxes commute. *)
Theorem family_change_commutes (user : option User) (p : Page) (field : FamilyField)
    (value : bool) :
  reachable user p ->
  profileData (step p (FamilyHistoryChanged field value))
  = handleFamilyHistoryChange field value (profileData p)
  /\ (forall c,
        step (step p (FamilyHistoryChanged field value)) (InputChanged c)
        = step (step p (InputChanged c)) (FamilyHistoryChanged field value))
  /\ (forall field' value',
        field' <> field ->
        step (step p (FamilyHistoryChanged field value))
             (FamilyHistoryChanged field' value')
        = step (step p (FamilyHistoryChanged field' value'))
               (FamilyHistoryChanged field value)).
Proof.
  intros R. pose proof (inv_bmi _ (reachable_inv user p R)) as S.
  cbn [step profileData loading submitted toasts].
  set (d := profileData p) in *.
  assert (F : forall f v x, commit x (handleFamilyHistoryChange f v x)
                            = handleFamilyHistoryChange f v x)
    by (intros; apply commit_same_deps; reflexivity).
  split; [apply F|]. split.
  - intros c. rewrite !F.
    rewrite (commit_settled_eq d (handleInputChange c d) S eq_refl).
    rewrite (commit_settled_eq (handleFamilyHistoryChange field value d)
               (handleInputChange c (handleFamilyHistoryChange field value d))
               S eq_refl).
    reflexivity.
  - intros field' value' Ne. rewrite !F.
    destruct field, field'; try (exfalso; apply Ne; reflexivity); reflexivity.
Qed.

(** The heart-disease box ticked on a fresh page. *)
Lemma family_change_commutes_witness :
  step (step (mount None) (FamilyHistoryChanged f_heartDisease true))
       (InputChanged (set_weight 82))
  = step (step (mount None) (InputChanged (set_weight 82)))
         (FamilyHistoryChanged f_heartDisease true).
Proof.
  exact (proj1 (proj2 (family_change_commutes None (mount None) f_heartDisease true
                         (reachable_mount None)))
               (set_weight 82)).
Defined.

(** X21: a submission never changes what the user entered: when it
    resolves, the page holds the inputs and the BMI it held just before,
    so that edits made while it waited survive, and only the score, the
    category, [loading] and the toasts change. *)
Theorem submission_keeps_inputs (p : Page) :
  same_profile (profileData (step p SubmitResolved)) (profileData p)
  /\ bmi (profileData (step p SubmitResolved)) = bmi (profileData p)
  /\ profileData (step p Submit) = profileData p.
Proof.
  split; [|split].
  - cbn [step]. destruct (submitted p) as [closed|]; [|repeat split].
    cbn [profileData]. rewrite commit_same_deps by reflexivity. repeat split.
  - cbn [step]. destruct (submitted p) as [closed|]; [|reflexivity].
    cbn [profileData]. rewrite commit_same_deps by reflexivity. reflexivity.
  - cbn [step]. destruct (loading p); reflexivity.
Qed.

(** X22: submitting an idle page twice in a row stores what submitting it
    once stores: the second submission finds the same inputs and the same
    BMI and computes the same score and category. *)
Theorem resubmission_idempotent (p : Page) :
  loading p = false ->
  profileData (run p [Submit; SubmitResolved; Submit; SubmitResolved])
  = profileData (run p [Submit; SubmitResolved]).
Proof.
  intros L. unfold run. cbn [fold_left step]. rewrite L.
  cbn [submitted profileData loading].
  rewrite !commit_same_deps by reflexivity.
  set (d := profileData p).
  assert (E : riskScore (storeRisk d d) = riskScore d)
    by (apply riskScore_ext; reflexivity).
  unfold storeRisk at 1. cbv zeta. rewrite E. reflexivity.
Qed.

(** The fresh page submitted twice. *)
Lemma resubmission_idempotent_witness :
  profileData (run (mount None) [Submit; SubmitResolved; Submit; SubmitResolved])
  = profileData (run (mount None) [Submit; SubmitResolved]).
Proof.
  apply (resubmission_idempotent (mount None)). reflexivity.
Defined.

End ProfileProperties.
